(** * Shallow embedding of the persistent-state core of [pos0.py]

    The program is a point-of-sale application whose core is a set of
    module-level functions, each of which opens a connection to one SQLite
    file, runs a few statements and commits.  The embedding keeps that
    shape: the database file is a record of tables, a table is the list of
    its rows in rowid order, and every function of the source is a function
    from the database before the call to the outcome of the call together
    with the database after it.

    Conventions.
    - INTEGER columns and Python [int]s are [Z]; a Python [int] bound to a
      statement parameter has to fit in 64 bits ([bind_int]).
    - REAL columns and Python [float]s are exact rationals [Q]: rounding is
      not modelled.
    - TEXT columns and Python [str]s are [string]; SQLite compares TEXT
      bytewise, which is [String.compare].
    - [datetime.now()] is read from an explicit [clock].
    - A Python exception is an [exn]; a call either returns or raises. *)

From Stdlib Require Import ZArith QArith List String Ascii Bool Lia.
From Stdlib Require Import Sorted Permutation.
Import ListNotations.

Local Open Scope string_scope.
Local Open Scope Z_scope.

(** ** Python outcomes *)

Module Py.

(** The exception classes the modelled functions can meet. *)
Inductive exn : Type :=
| TypeError
| NameError
| ValueError
| IntegrityError
| FileNotFoundError
| OverflowError.

Inductive outcome (A : Type) : Type :=
| Return (a : A)
| Raise (e : exn).
Arguments Return {A} a.
Arguments Raise {A} e.

Definition bind {A B : Type} (m : outcome A) (k : A -> outcome B) : outcome B :=
  match m with
  | Return a => k a
  | Raise e => Raise e
  end.

(** Names bound in the module's global namespace while the application
    runs: the names introduced by the import statements of lines 1-16, the
    module-level assignments of lines 19-30, the [def] and [class]
    statements, and the assignments of the main block (lines 1170-1178). *)
Definition module_globals : list string :=
  [ "tk"; "ttk"; "messagebox"; "ctk"; "sqlite3"; "os"; "Image"; "ImageDraw";
    "Code128"; "ImageWriter"; "csv"; "datetime"; "timedelta"; "logging";
    "sys"; "plt"; "FigureCanvasTkAgg"; "sns"; "np";
    "logger"; "formatter"; "file_handler"; "console_handler"; "dir";
    "setup_database"; "add_product"; "adjust_stock"; "delete_product";
    "get_inventory"; "record_sale"; "add_customer"; "get_customers";
    "get_sales_summary"; "get_avg_sale_value"; "get_sales_trend";
    "get_top_products"; "get_category_sales"; "get_staff_performance";
    "get_top_customer"; "get_low_stock"; "get_sales_history";
    "get_customer_history"; "get_sales_by_season"; "get_sales_by_month";
    "get_sales_by_age_group"; "add_staff"; "verify_staff_pin";
    "generate_barcode"; "print_receipt"; "export_to_csv"; "ShopifyPOS";
    "conn"; "c"; "root"; "app" ].

(** Evaluating a name that is not bound in the module raises [NameError]
    (the one name looked up this way below is not a builtin either). *)
Definition global_name (n : string) : outcome unit :=
  if existsb (String.eqb n) module_globals then Return tt else Raise NameError.

(** [logger.error(f"...{traceback.format_exc()}")], the last statement
    of the [except Exception] handlers: the f-string evaluates the global
    name [traceback] before anything is logged. *)
Definition log_traceback : outcome unit := global_name "traceback".

End Py.
Export Py.

Notation "x <- m ;; k" := (Py.bind m (fun x => k))
  (at level 61, m at next level, right associativity).

(** ** The database *)

Module Sql.

(** Row of [products] (lines 37-44). *)
Record product : Type := mkProduct {
  p_id : Z;
  p_name : string;
  p_price : Q;
  p_stock : Z;
  p_category : string;
  p_barcode : string
}.

(** Row of [sales] (lines 45-58). *)
Record sale : Type := mkSale {
  s_id : Z;
  s_product_id : Z;
  s_quantity : Z;
  s_total : Q;
  s_discount : Q;
  s_date : string;
  s_staff_id : Z;
  s_payment_method : string;
  s_customer_id : option Z
}.

(** Row of [customers] (lines 59-65). *)
Record customer : Type := mkCustomer {
  c_id : Z;
  c_name : string;
  c_email : string;
  c_points : Z;
  c_age : option Z
}.

(** The file [shopify_pos.db].  The three [seq_] fields are the entries
    of [sqlite_sequence] that AUTOINCREMENT keeps per table: the largest
    rowid ever handed out. *)
Record database : Type := mkDatabase {
  products : list product;
  sales : list sale;
  customers : list customer;
  seq_products : Z;
  seq_sales : Z;
  seq_customers : Z
}.

(** The state [setup_database] creates on a fresh file. *)
Definition empty_database : database := mkDatabase [] [] [] 0 0 0.

(** Rowid of the next AUTOINCREMENT insert: one more than the largest of
    the recorded sequence value and the rowids present. *)
Definition next_rowid (seq : Z) (ids : list Z) : Z :=
  fold_left Z.max ids seq + 1.

(** SQLite stores an INTEGER in a signed 64-bit word.  Binding a Python
    [int] outside that range to a statement parameter raises
    [OverflowError] before the statement runs; [None] binds as NULL. *)
Definition in_int64 (z : Z) : bool :=
  (- 2 ^ 63 <=? z) && (z <=? 2 ^ 63 - 1).

Definition bind_int (z : Z) : outcome unit :=
  if in_int64 z then Return tt else Raise OverflowError.

Definition bind_optional_int (z : option Z) : outcome unit :=
  match z with
  | None => Return tt
  | Some v => bind_int v
  end.

(** [cursor.row_factory]: by default a fetched row is a plain tuple; only
    [sqlite3.Row] supports access by column name. *)
Inductive row_factory : Type :=
| TupleRows
| NamedRows.

(** [cursor.fetchone()]: the first row of the result, or Python [None]. *)
Definition fetchone {A : Type} (rows : list A) : option A := hd_error rows.

(** [result["column"]]: subscripting by a column name. [None] is not
    subscriptable, and a tuple only takes integer indices. *)
Definition subscript_name {A B : Type} (rf : row_factory)
    (result : option A) (column : A -> B) : outcome B :=
  match result with
  | None => Raise TypeError
  | Some row =>
      match rf with
      | TupleRows => Raise TypeError
      | NamedRows => Return (column row)
      end
  end.

(** [result[0]]: subscripting by position works on tuples and on
    [sqlite3.Row] alike. *)
Definition subscript_index {A B : Type} (result : option A)
    (column : A -> B) : outcome B :=
  match result with
  | None => Raise TypeError
  | Some row => Return (column row)
  end.

(** [SELECT ... FROM products WHERE id = ?] *)
Definition select_product (db : database) (product_id : Z) : list product :=
  filter (fun p => p_id p =? product_id) (products db).

(** [UPDATE products SET stock = <f stock> WHERE id = ?] *)
Definition update_stock (f : Z -> Z) (product_id : Z) (db : database) : database :=
  mkDatabase
    (map (fun p => if p_id p =? product_id
                   then mkProduct (p_id p) (p_name p) (p_price p) (f (p_stock p))
                                  (p_category p) (p_barcode p)
                   else p) (products db))
    (sales db) (customers db)
    (seq_products db) (seq_sales db) (seq_customers db).

(** [INSERT INTO sales (...) VALUES (...)] with an AUTOINCREMENT id. *)
Definition insert_sale (product_id quantity : Z) (total discount : Q)
    (date : string) (staff_id : Z) (payment_method : string)
    (customer_id : option Z) (db : database) : database :=
  let id := next_rowid (seq_sales db) (map s_id (sales db)) in
  mkDatabase (products db)
    (sales db ++ [mkSale id product_id quantity total discount date
                         staff_id payment_method customer_id])
    (customers db)
    (seq_products db) id (seq_customers db).

(** SQL [SUM] over a REAL and over an INTEGER column: NULL (Python
    [None]) on an empty set of rows. *)
Definition sum_real (xs : list Q) : option Q :=
  match xs with
  | [] => None
  | _ => Some (fold_left Qplus xs 0%Q)
  end.

Definition sum_int (xs : list Z) : option Z :=
  match xs with
  | [] => None
  | _ => Some (fold_left Z.add xs 0)
  end.

(** SQL [AVG] over a REAL column. *)
Definition avg_real (xs : list Q) : option Q :=
  match xs with
  | [] => None
  | _ => Some (fold_left Qplus xs 0%Q / inject_Z (Z.of_nat (List.length xs)))%Q
  end.

End Sql.
Export Sql.

(** What the source reads from [datetime.now()], already formatted. *)
Record clock : Type := mkClock {
  now_stamp : string;      (* now, "%Y-%m-%d %H:%M:%S" *)
  now_hms : string;        (* now, "%H%M%S" *)
  today_start : string;    (* now with the time of day zeroed *)
  week_start : string;     (* now - 7 days *)
  month_start : string     (* now - 30 days *)
}.

(** ** Inventory store (lines 75-119) *)

(** A cart line [(product_id, quantity, price)]. *)
Definition cart_line : Type := (Z * Z * Q)%type.

(** [generate_barcode(barcode_value)] (lines 444-457).  The image writer
    is an external collaborator; [image_written] tells whether the file
    exists after line 449.  When it does not, line 454 raises inside the
    [try], and the handler of line 455 evaluates its log statement before
    re-raising. *)
Definition generate_barcode (image_written : bool) (barcode_value : string)
    : outcome string :=
  let full_path := "barcodes/" ++ barcode_value ++ ".png" in
  if image_written then Return full_path
  else (_ <- log_traceback ;; Raise FileNotFoundError).

(** [add_product(name, price, stock, category)].  [price_repr] is
    [str(price)] as the f-string of line 76 renders it.  The INSERT of
    line 81 binds [stock]; a bind that fails reaches the handler of line
    91 with nothing stored.  A duplicate barcode violates the UNIQUE
    constraint: the insert is not committed and line 90 raises
    [ValueError].  A failure of [generate_barcode] happens after the commit
    of line 83 and reaches the handler of line 91 as well.  That handler
    evaluates its log statement before re-raising. *)
Definition add_product (clk : clock) (price_repr : string) (image_written : bool)
    (name : string) (price : Q) (stock : Z) (category : string)
    (db : database) : outcome string * database :=
  let barcode := name ++ "_" ++ price_repr ++ "_" ++ now_hms clk in
  match bind_int stock with
  | Raise e => (_ <- log_traceback ;; Raise e, db)
  | Return _ =>
      if existsb (fun p => String.eqb (p_barcode p) barcode) (products db)
      then (Raise ValueError, db)
      else
        let id := next_rowid (seq_products db) (map p_id (products db)) in
        let db' := mkDatabase
                     (products db ++ [mkProduct id name price stock category barcode])
                     (sales db) (customers db)
                     id (seq_sales db) (seq_customers db) in
        match generate_barcode image_written barcode with
        | Return _ => (Return barcode, db')
        | Raise e => (_ <- log_traceback ;; Raise e, db')
        end
  end.

(** [adjust_stock(product_id, new_stock)]: one UPDATE, then commit.  The
    UPDATE of line 100 binds both arguments; a bind that fails reaches the
    handler of lines 103-105, which evaluates its log statement before
    re-raising, with nothing stored. *)
Definition adjust_stock (product_id new_stock : Z) (db : database)
    : outcome unit * database :=
  match (_ <- bind_int new_stock ;; bind_int product_id) with
  | Raise e => (_ <- log_traceback ;; Raise e, db)
  | Return _ => (Return tt, update_stock (fun _ => new_stock) product_id db)
  end.

(** [delete_product(product_id)]: two DELETEs, then commit.  The DELETE
    of line 112 binds [product_id]; a bind that fails reaches the handler
    of lines 117-119, which evaluates its log statement before re-raising,
    with nothing deleted. *)
Definition delete_product (product_id : Z) (db : database)
    : outcome unit * database :=
  match bind_int product_id with
  | Raise e => (_ <- log_traceback ;; Raise e, db)
  | Return _ =>
      (Return tt,
       mkDatabase
         (filter (fun p => negb (p_id p =? product_id)) (products db))
         (filter (fun s => negb (s_product_id s =? product_id)) (sales db))
         (customers db)
         (seq_products db) (seq_sales db) (seq_customers db))
  end.

(** The database part of [ShopifyPOS.process_return] (lines 1074-1079);
    [sale_id], [product_id] and [qty] are read from the selected table row. *)
Definition process_return (sale_id product_id qty : Z) (db : database)
    : outcome unit * database :=
  let db1 := mkDatabase (products db)
               (filter (fun s => negb (s_id s =? sale_id)) (sales db))
               (customers db)
               (seq_products db) (seq_sales db) (seq_customers db) in
  (Return tt, update_stock (fun stock => stock + qty) product_id db1).

(** What [ShopifyPOS.apply_stock_adjust] shows the user. *)
Inductive stock_dialog : Type :=
| StockSet (new_stock : Z)
| StockWarning (message : string).

(** [ShopifyPOS.apply_stock_adjust] (lines 925-935), the only caller of
    [adjust_stock], on an entry that [int()] has parsed to [new_stock]:
    line 929 raises [ValueError] before the call, and the handler of line
    934 turns it into a warning. *)
Definition apply_stock_adjust (product_id new_stock : Z) (db : database)
    : outcome stock_dialog * database :=
  if new_stock <? 0 then (Return (StockWarning "Stock cannot be negative."), db)
  else
    let '(r, db') := adjust_stock product_id new_stock db in
    (_ <- r ;; Return (StockSet new_stock), db').

(** ** Sales transaction (lines 136-167) *)

(** The first loop (lines 144-156), run on the connection's uncommitted
    view [working] of the database.  The result is
    - [Raise e] when a statement of the body raises,
    - [Return None] when line 149 finds too little stock,
    - [Return (Some (working', total_sale'))] when the loop runs to its end. *)
Fixpoint check_lines (rf : row_factory) (cart_items : list cart_line)
    (working : database) (total_sale : Q) : outcome (option (database * Q)) :=
  match cart_items with
  | [] => Return (Some (working, total_sale))
  | (product_id, quantity, price) :: rest =>
      let result := fetchone (select_product working product_id) in
      stock <- subscript_name rf result p_stock ;;
      name <- subscript_name rf result p_name ;;
      if stock <? quantity then Return None
      else
        let total := (price * inject_Z quantity)%Q in
        check_lines rf rest
          (update_stock (fun s => s - quantity) product_id working)
          (total_sale + total)%Q
  end.

(** The second loop (lines 158-160): one row per cart line, every row with
    the same [total] and [discount] arguments. *)
Fixpoint insert_lines (lines : list cart_line) (total discount : Q)
    (date : string) (staff_id : Z) (payment_method : string)
    (customer_id : option Z) (working : database) : database :=
  match lines with
  | [] => working
  | (product_id, quantity, _) :: rest =>
      insert_lines rest total discount date staff_id payment_method customer_id
        (insert_sale product_id quantity total discount date staff_id
                     payment_method customer_id working)
  end.

(** The value record_sale returns: [(total_sale, date)], or [(None, None)]. *)
Definition sale_result : Type := (option Q * option string)%type.
Definition sale_failed : sale_result := (None, None).

(** [record_sale] on a connection whose rows are produced by [rf].
    A rollback discards [working], so the database handed back is [db].
    The handler of lines 164-167 rolls back and then evaluates its log
    statement; [return None, None] on line 167 is reached only if that
    statement does not raise. *)
Definition record_sale_with (rf : row_factory) (clk : clock)
    (cart_items : list cart_line) (staff_id : Z) (payment_method : string)
    (discount : Q) (customer_id : option Z) (db : database)
    : outcome sale_result * database :=
  let date := now_stamp clk in
  match check_lines rf cart_items db 0%Q with
  | Raise _ =>
      (_ <- log_traceback ;; Return sale_failed, db)
  | Return None =>
      (Return sale_failed, db)
  | Return (Some (working, total_sale)) =>
      let total_sale := (total_sale - discount)%Q in
      let n := inject_Z (Z.of_nat (List.length cart_items)) in
      let working := insert_lines cart_items (total_sale / n)%Q (discount / n)%Q
                       date staff_id payment_method customer_id working in
      (Return (Some total_sale, Some date), working)
  end.

(** [record_sale(cart_items, staff_id, payment_method, discount, customer_id)]
    as written: the connection of line 137 is used as [sqlite3.connect]
    returns it, without a [row_factory]. *)
Definition record_sale : clock -> list cart_line -> Z -> string -> Q ->
    option Z -> database -> outcome sale_result * database :=
  record_sale_with TupleRows.

(** ** Customer ledger (lines 169-188) *)

(** [add_customer(name, email, points, age)].  The INSERT of line 174
    binds [points] and [age]; a bind that fails is no [IntegrityError] and
    reaches the handler of lines 186-188, which evaluates its log statement
    before re-raising, with nothing stored.  Otherwise the INSERT violates
    the UNIQUE constraint on [email] when a row with that email exists; the
    handler of line 179 then reads the id of that row through a second
    connection. *)
Definition add_customer (name email : string) (points : Z) (age : option Z)
    (db : database) : outcome Z * database :=
  match (_ <- bind_int points ;; bind_optional_int age) with
  | Raise e => (_ <- log_traceback ;; Raise e, db)
  | Return _ =>
      if existsb (fun c => String.eqb (c_email c) email) (customers db)
      then
        let result := fetchone (filter (fun c => String.eqb (c_email c) email)
                                       (customers db)) in
        (subscript_index result c_id, db)
      else
        let id := next_rowid (seq_customers db) (map c_id (customers db)) in
        (Return id,
         mkDatabase (products db) (sales db)
           (customers db ++ [mkCustomer id name email points age])
           (seq_products db) (seq_sales db) id)
  end.

(** ** Reporting (lines 200-244) *)

(** The rows the query of the chosen branch ranges over: with a WHERE
    clause [date >= start_date] for the three named periods, the whole
    table in the [else] branch. *)
Definition sales_in_period (clk : clock) (period : string) (db : database)
    : list sale :=
  if String.eqb period "today" then
    filter (fun s => String.leb (today_start clk) (s_date s)) (sales db)
  else if String.eqb period "week" then
    filter (fun s => String.leb (week_start clk) (s_date s)) (sales db)
  else if String.eqb period "month" then
    filter (fun s => String.leb (month_start clk) (s_date s)) (sales db)
  else
    sales db.

(** Python [x or 0] on a fetched aggregate: [None] and zero are falsy. *)
Definition or_zero_real (x : option Q) : Q :=
  match x with
  | None => 0%Q
  | Some q => if Qeq_bool q 0 then 0%Q else q
  end.

Definition or_zero_int (x : option Z) : Z :=
  match x with
  | None => 0
  | Some z => if z =? 0 then 0 else z
  end.

(** [get_sales_summary(period)] returns [(total, items)]. *)
Definition get_sales_summary (clk : clock) (period : string) (db : database)
    : Q * Z :=
  let rows := sales_in_period clk period db in
  (or_zero_real (sum_real (map s_total rows)),
   or_zero_int (sum_int (map s_quantity rows))).

(** [get_avg_sale_value(period)] returns [avg]. *)
Definition get_avg_sale_value (clk : clock) (period : string) (db : database)
    : Q :=
  let rows := sales_in_period clk period db in
  or_zero_real (avg_real (map s_total rows)).

(** ** Fixtures *)

Definition clk0 : clock :=
  mkClock "2024-05-01 12:00:00" "120000"
          "2024-05-01 00:00:00" "2024-04-24 12:00:00" "2024-04-01 12:00:00".

(** The store of the scenarios: a Pen at 5.00 with 10 in stock. *)
Definition pen_store : database :=
  snd (add_product clk0 "5.0" true "Pen" 5%Q 10 "Stationery" empty_database).

(** The Pen store with a Notebook that is out of stock. *)
Definition pen_notebook_store : database :=
  snd (add_product clk0 "2.5" true "Notebook" 2.5%Q 0 "Stationery" pen_store).


(** A database file that already holds one sale of two Pens, dated the
    day before [clk0]. *)
Definition pen_store_with_sale : database :=
  mkDatabase (products pen_store)
    [mkSale 1 1 2 10%Q 0%Q "2024-04-30 09:30:00" 1 "cash" None]
    [] 1 1 0.

(** ** Properties of states and sequences of operations *)

(** [SELECT stock FROM products WHERE id = ?], first row. *)
Definition stock_of (db : database) (product_id : Z) : option Z :=
  option_map p_stock (fetchone (select_product db product_id)).

(** Every product has a stock of at least zero. *)
Definition stock_nonneg (db : database) : Prop :=
  Forall (fun p => 0 <= p_stock p) (products db).

(** [id] is a PRIMARY KEY of [products]. *)
Definition product_ids_unique (db : database) : Prop :=
  NoDup (map p_id (products db)).

(** Every sale row refers to a product that is present. *)
Definition sales_reference_products (db : database) : Prop :=
  Forall (fun s => In (s_product_id s) (map p_id (products db))) (sales db).

(** The ids the tables hold are 64-bit integers, as in every SQLite file. *)
Definition stored_ids_in_range (db : database) : Prop :=
  Forall (fun p => in_int64 (p_id p) = true) (products db)
  /\ Forall (fun s => in_int64 (s_product_id s) = true) (sales db).

(** The operations that write stock, with the arguments of the call. *)
Inductive operation : Type :=
| AddProduct (clk : clock) (price_repr : string) (image_written : bool)
             (name : string) (price : Q) (stock : Z) (category : string)
| AdjustStock (product_id new_stock : Z)
| DeleteProduct (product_id : Z)
| RecordSale (clk : clock) (cart_items : list cart_line) (staff_id : Z)
             (payment_method : string) (discount : Q) (customer_id : option Z)
| ProcessReturn (sale_id product_id qty : Z).

(** The database after one operation, whatever the call returned or
    raised; [rf] is the row factory of the connection of [record_sale]. *)
Definition perform_with (rf : row_factory) (o : operation) (db : database)
    : database :=
  match o with
  | AddProduct clk price_repr image_written name price stock category =>
      snd (add_product clk price_repr image_written name price stock category db)
  | AdjustStock product_id new_stock =>
      snd (adjust_stock product_id new_stock db)
  | DeleteProduct product_id =>
      snd (delete_product product_id db)
  | RecordSale clk cart_items staff_id payment_method discount customer_id =>
      snd (record_sale_with rf clk cart_items staff_id payment_method discount
                            customer_id db)
  | ProcessReturn sale_id product_id qty =>
      snd (process_return sale_id product_id qty db)
  end.

Definition perform : operation -> database -> database := perform_with TupleRows.

Definition perform_all (ops : list operation) (db : database) : database :=
  fold_left (fun d o => perform o d) ops db.

(** The stock an operation writes from its own arguments is not negative:
    the stock of a new product, the value set by an adjustment, the
    quantity a return gives back. *)
Definition supplies_nonneg_stock (o : operation) : Prop :=
  match o with
  | AddProduct _ _ _ _ _ stock _ => 0 <= stock
  | AdjustStock _ new_stock => 0 <= new_stock
  | ProcessReturn _ _ qty => 0 <= qty
  | DeleteProduct _ | RecordSale _ _ _ _ _ _ => True
  end.

(** Lines 153-154: one line's [total] added to [total_sale]. *)
Definition add_line (acc : Q) (line : cart_line) : Q :=
  let '(_, quantity, price) := line in (acc + price * inject_Z quantity)%Q.



(** ** Further queries (lines 190-198, 323-331, 347-355) *)

(** [get_low_stock()]: [SELECT name, stock FROM products WHERE stock < 5]. *)
Definition get_low_stock (db : database) : list (string * Z) :=
  map (fun p => (p_name p, p_stock p))
      (filter (fun p => p_stock p <? 5) (products db)).

(** [get_customer_history(customer_id)]:
    [SELECT * FROM sales WHERE customer_id = ?].  A row whose
    [customer_id] is NULL matches no id. *)
Definition get_customer_history (customer_id : Z) (db : database) : list sale :=
  filter (fun s => match s_customer_id s with
                   | Some c => c =? customer_id
                   | None => false
                   end) (sales db).

(** [ORDER BY name] on the rows [(id, name)]: TEXT compares bytewise, and
    rows with equal names stay in rowid order. *)
Fixpoint insert_by_name (row : Z * string) (rows : list (Z * string))
    : list (Z * string) :=
  match rows with
  | [] => [row]
  | r :: rest =>
      if String.leb (snd row) (snd r) then row :: r :: rest
      else r :: insert_by_name row rest
  end.

Fixpoint order_by_name (rows : list (Z * string)) : list (Z * string) :=
  match rows with
  | [] => []
  | r :: rest => insert_by_name r (order_by_name rest)
  end.

(** [get_customers()]: [SELECT id, name FROM customers ORDER BY name]. *)
Definition get_customers (db : database) : list (Z * string) :=
  order_by_name (map (fun c => (c_id c, c_name c)) (customers db)).

(** ** Staff directory (lines 66-71, 419-442)

    The [staff] table of the same file.  No modelled function reads or
    writes it together with the other tables, so it is kept in a record of
    its own. *)

Record staff_member : Type := mkStaff {
  st_id : Z;
  st_name : string;
  st_pin : string;
  st_role : string
}.

Record staff_table : Type := mkStaffTable {
  staff : list staff_member;
  seq_staff : Z
}.

(** [add_staff(name, pin, role)].  A pin that is already stored violates
    the UNIQUE constraint; the [IntegrityError] reaches the handler of
    line 427, which evaluates its log statement before re-raising. *)
Definition add_staff (name pin role : string) (tbl : staff_table)
    : outcome unit * staff_table :=
  if existsb (fun m => String.eqb (st_pin m) pin) (staff tbl)
  then (_ <- log_traceback ;; Raise IntegrityError, tbl)
  else
    let id := next_rowid (seq_staff tbl) (map st_id (staff tbl)) in
    (Return tt, mkStaffTable (staff tbl ++ [mkStaff id name pin role]) id).

(** [verify_staff_pin(pin)]: the first row [(id, name, role)] with the
    pin, or [None]. *)
Definition verify_staff_pin (pin : string) (tbl : staff_table)
    : option (Z * string * string) :=
  option_map (fun m => (st_id m, st_name m, st_role m))
             (fetchone (filter (fun m => String.eqb (st_pin m) pin) (staff tbl))).

(** ** The inventory and cart handlers of [ShopifyPOS] *)

(** An entry of [self.cart]: [(product_id, qty, price, name)]. *)
Definition cart_entry : Type := (Z * Z * Q * string)%type.

(** [ShopifyPOS.add_to_cart] (lines 946-966) on entries that [int()] has
    parsed.  The result is the warning shown, if any, and the cart. *)
Definition add_to_cart (product_id qty : Z) (cart : list cart_entry)
    (db : database) : option string * list cart_entry :=
  if qty <=? 0 then (Some "Quantity must be positive.", cart)
  else
    match fetchone (select_product db product_id) with
    | None => (Some "Not enough stock or invalid ID.", cart)
    | Some p =>
        if p_stock p <? qty then (Some "Not enough stock or invalid ID.", cart)
        else (None, (cart ++ [(product_id, qty, p_price p, p_name p)])%list)
    end.

(** What [ShopifyPOS.add_product] shows the user: the success message
    with the barcode, a warning raised by its own checks, or the warning
    for an exception that [add_product] raised. *)
Inductive product_dialog : Type :=
| ProductAdded (barcode : string)
| ProductWarning (message : string)
| ProductError (e : exn).

(** [ShopifyPOS.add_product] (lines 875-895) on a stripped [name] and
    parsed [price] and [stock].  Both handlers end in a message box, so
    nothing is raised to the caller. *)
Definition ShopifyPOS_add_product (clk : clock) (price_repr : string)
    (image_written : bool) (name : string) (price : Q) (stock : Z)
    (category : string) (db : database) : product_dialog * database :=
  if String.eqb name "" then
    (ProductWarning "Product name cannot be empty.", db)
  else if negb (Qle_bool 0 price) || (stock <? 0) then
    (ProductWarning "Price and stock must be non-negative.", db)
  else
    match add_product clk price_repr image_written name price stock category db with
    | (Return barcode, db') => (ProductAdded barcode, db')
    | (Raise e, db') => (ProductError e, db')
    end.

(** [ShopifyPOS.remove_inventory_item] (lines 897-907); [confirmed] is the
    answer to the confirmation box. *)
Definition remove_inventory_item (product_id : Z) (confirmed : bool)
    (db : database) : database :=
  if confirmed then snd (delete_product product_id db) else db.

(** The inventory actions a user can take. *)
Inductive inventory_action : Type :=
| UiAddProduct (clk : clock) (price_repr : string) (image_written : bool)
               (name : string) (price : Q) (stock : Z) (category : string)
| UiAdjustStock (product_id new_stock : Z)
| UiRemoveItem (product_id : Z) (confirmed : bool).

Definition act (a : inventory_action) (db : database) : database :=
  match a with
  | UiAddProduct clk price_repr image_written name price stock category =>
      snd (ShopifyPOS_add_product clk price_repr image_written name price stock
                                  category db)
  | UiAdjustStock product_id new_stock =>
      snd (apply_stock_adjust product_id new_stock db)
  | UiRemoveItem product_id confirmed =>
      remove_inventory_item product_id confirmed db
  end.

Definition act_all (actions : list inventory_action) (db : database) : database :=
  fold_left (fun d a => act a d) actions db.

(** A store with three customers, entered out of name order. *)
Definition customer_store : database :=
  snd (add_customer "Bea" "bea@example.org" 0 None
        (snd (add_customer "Cy" "cy@example.org" 5 (Some 40)
          (snd (add_customer "Al" "al@example.org" 0 None empty_database))))).

(** The staff table after the insert of the main block (line 1172). *)
Definition admin_table : staff_table :=
  mkStaffTable [mkStaff 1 "Admin" "1234" "admin"] 1.

(** A clock whose window starts are in calendar order. *)
Definition clock_in_order (clk : clock) : Prop :=
  String.leb (month_start clk) (week_start clk) = true
  /\ String.leb (week_start clk) (today_start clk) = true.

(** * Checkout *)

Section Checkout.

Variables (clk : clock) (staff_id : Z) (payment_method : string)
          (discount : Q) (customer_id : option Z).

(** On a connection without a row factory the body of the first loop
    raises on its first line: the fetched row is a tuple or [None], and
    line 147 subscripts it with a column name. *)
Lemma check_lines_tuple_rows (line : cart_line) (rest : list cart_line)
    (working : database) (total_sale : Q) :
  check_lines TupleRows (line :: rest) working total_sale = Raise TypeError.
Proof.
  destruct line as [[product_id quantity] price]. simpl.
  destruct (fetchone (select_product working product_id)); reflexivity.
Qed.

(** The name [traceback] is not bound in the module. *)
Lemma log_traceback_raises : log_traceback = Raise NameError.
Proof. reflexivity. Qed.

(** So a call with at least one cart line leaves through the handler,
    whose log statement raises before [return None, None]. *)
Lemma record_sale_line_raises (line : cart_line) (rest : list cart_line)
    (db : database) :
  record_sale clk (line :: rest) staff_id payment_method discount customer_id db
  = (Raise NameError, db).
Proof.
  unfold record_sale, record_sale_with.
  rewrite check_lines_tuple_rows, log_traceback_raises. reflexivity.
Qed.

(** Whatever the row factory, a call that does not commit hands back the
    database it was given. *)
Lemma record_sale_with_rollback (rf : row_factory) (cart_items : list cart_line)
    (db : database) (r : outcome sale_result) (db' : database) :
  record_sale_with rf clk cart_items staff_id payment_method discount
                   customer_id db = (r, db') ->
  (forall total date, r <> Return (Some total, date)) ->
  db' = db.
Proof.
  unfold record_sale_with.
  destruct (check_lines rf cart_items db 0%Q) as [[[working total_sale]|]|e];
    intros H Hr; inversion H; subst; try reflexivity.
  exfalso. eapply Hr. reflexivity.
Qed.

End Checkout.

(** C1 (code as written, at an input of the claim).  The cart asks for 3
    Pens and 1 Notebook while the Notebook is out of stock.  The claim
    expects the failure value [(None, None)]; the call raises [NameError]
    instead.  The database is the one passed in: no stock changed and no
    sale row was inserted. *)
Theorem record_sale_short_stock_raises :
  record_sale clk0 [(1, 3, 5%Q); (2, 1, 2.5%Q)] 1 "cash" 0%Q None
              pen_notebook_store
  = (Raise NameError, pen_notebook_store)
  /\ stock_of pen_notebook_store 1 = Some 10
  /\ stock_of pen_notebook_store 2 = Some 0
  /\ sales pen_notebook_store = [].
Proof. repeat split; reflexivity. Qed.

(** As written, no cart of one or more lines is committed: for every such
    cart and every database the call raises and the sales table is the one
    before the call. *)
Theorem record_sale_inserts_no_allocated_row :
  forall clk line rest staff_id payment_method discount customer_id db,
    let r := record_sale clk (line :: rest) staff_id payment_method discount
                         customer_id db in
    fst r = Raise NameError /\ sales (snd r) = sales db /\ snd r = db.
Proof.
  intros. subst r. rewrite record_sale_line_raises. repeat split.
Qed.

(** C4 (code as written, at the scenario of the claim).  With the Pen at
    5.00 and 10 in stock, the cart of 2 Pens with discount 0 is not
    committed: the call raises, the stock stays 10 and the sales table
    stays empty. *)
Theorem record_sale_pen_scenario_raises :
  let r := record_sale clk0 [(1, 2, 5%Q)] 1 "cash" 0%Q None pen_store in
  fst r = Raise NameError
  /\ stock_of (snd r) 1 = Some 10
  /\ sales (snd r) = [].
Proof. repeat split; reflexivity. Qed.

(** C8 (claim as stated, refuted).  On the empty cart the call does not
    yield the failure value. *)
Lemma record_sale_empty_cart_not_failure :
  fst (record_sale clk0 [] 1 "cash" 0%Q None pen_store) <> Return sale_failed.
Proof. vm_compute. discriminate. Qed.

(** C8 (amended).  On the empty cart neither loop body runs: the call
    commits nothing, hands back the database unchanged -- no sale row, no
    stock change -- and returns [(0 - discount, date)]. *)
Theorem record_sale_empty_cart :
  forall clk staff_id payment_method discount customer_id db,
    record_sale clk [] staff_id payment_method discount customer_id db
    = (Return (Some (0 - discount)%Q, Some (now_stamp clk)), db).
Proof. reflexivity. Qed.

(** ** The same function on a connection with [sqlite3.Row]

    Every reporting function of the source sets
    [conn.row_factory = sqlite3.Row] before it subscripts a row by column
    name.  The lemmas of this section describe [record_sale_with NamedRows],
    the function [record_sale] would be with that one assignment. *)

Section NamedRowsCheckout.

Variables (clk : clock) (staff_id : Z) (payment_method : string)
          (customer_id : option Z).

Lemma stock_of_update_stock (f : Z -> Z) (product_id other : Z) (db : database) :
  stock_of (update_stock f product_id db) other
  = if other =? product_id then option_map f (stock_of db other)
    else stock_of db other.
Proof.
  unfold stock_of, select_product, update_stock, fetchone. simpl.
  induction (products db) as [|p ps IH]; simpl.
  - destruct (other =? product_id); reflexivity.
  - destruct (p_id p =? product_id) eqn:Hp; simpl.
    + apply Z.eqb_eq in Hp.
      destruct (p_id p =? other) eqn:Ho; simpl.
      * apply Z.eqb_eq in Ho.
        replace (other =? product_id) with true
          by (symmetry; apply Z.eqb_eq; congruence).
        reflexivity.
      * exact IH.
    + destruct (p_id p =? other) eqn:Ho; simpl.
      * apply Z.eqb_eq in Ho.
        replace (other =? product_id) with false
          by (symmetry; apply Z.eqb_neq; apply Z.eqb_neq in Hp; congruence).
        reflexivity.
      * exact IH.
Qed.

(** One step of the first loop, by cases on what line 145 fetches. *)
Lemma check_lines_named_step (product_id quantity : Z) (price : Q)
    (rest : list cart_line) (working : database) (total_sale : Q) :
  check_lines NamedRows ((product_id, quantity, price) :: rest) working total_sale
  = match stock_of working product_id with
    | None => Raise TypeError
    | Some stock =>
        if stock <? quantity then Return None
        else check_lines NamedRows rest
               (update_stock (fun s => s - quantity) product_id working)
               (total_sale + price * inject_Z quantity)%Q
    end.
Proof.
  unfold stock_of. simpl.
  destruct (fetchone (select_product working product_id)); reflexivity.
Qed.

(** The first loop stops with "not enough stock" as soon as the cart
    holds a line that asks for more than the product has, provided all
    the products of the cart exist and no quantity is negative. *)
Lemma check_lines_named_short (cart_items : list cart_line) :
  forall (working : database) (total_sale : Q),
    Forall (fun line : cart_line =>
              let '(product_id, quantity, _) := line in
              0 <= quantity /\ stock_of working product_id <> None) cart_items ->
    Exists (fun line : cart_line =>
              let '(product_id, quantity, _) := line in
              exists stock, stock_of working product_id = Some stock
                            /\ stock < quantity) cart_items ->
    check_lines NamedRows cart_items working total_sale = Return None.
Proof.
  induction cart_items as [|[[product_id quantity] price] rest IH];
    intros working total_sale Hall Hshort.
  - inversion Hshort.
  - rewrite check_lines_named_step.
    inversion Hall as [|? ? Hhead Hrest]; subst.
    simpl in Hhead. destruct Hhead as [Hq Hex].
    destruct (stock_of working product_id) as [stock|] eqn:Hst;
      [|congruence].
    destruct (stock <? quantity) eqn:Hlt; [reflexivity|].
    apply Z.ltb_ge in Hlt.
    apply IH.
    + rewrite Forall_forall in *. intros [[pid q] pr] Hin.
      specialize (Hrest _ Hin). simpl in Hrest. destruct Hrest as [Hq' Hex'].
      split; [exact Hq'|].
      rewrite stock_of_update_stock.
      destruct (pid =? product_id); [|exact Hex'].
      destruct (stock_of working pid); simpl; congruence.
    + inversion Hshort as [? ? Hhead|? ? Htail]; subst.
      * simpl in Hhead. destruct Hhead as [stock' [Hs' Hlt']].
        rewrite Hst in Hs'.
        inversion Hs'; subst. lia.
      * rewrite Exists_exists in *.
        destruct Htail as [[[pid q] pr] [Hin [stock' [Hs' Hlt']]]].
        exists (pid, q, pr). split; [exact Hin|].
        rewrite stock_of_update_stock.
        destruct (pid =? product_id) eqn:Hpid.
        -- rewrite Hs'. simpl. exists (stock' - quantity). split; [reflexivity|lia].
        -- exists stock'. split; [exact Hs'|exact Hlt'].
Qed.

(** Checkout atomicity with named rows: the failure value comes back and
    the database is the one before the call. *)
Lemma record_sale_named_short_stock (cart_items : list cart_line)
    (discount : Q) (db : database) :
  Forall (fun line : cart_line =>
            let '(product_id, quantity, _) := line in
            0 <= quantity /\ stock_of db product_id <> None) cart_items ->
  Exists (fun line : cart_line =>
            let '(product_id, quantity, _) := line in
            exists stock, stock_of db product_id = Some stock
                          /\ stock < quantity) cart_items ->
  record_sale_with NamedRows clk cart_items staff_id payment_method discount
                   customer_id db
  = (Return sale_failed, db).
Proof.
  intros Hall Hshort. unfold record_sale_with.
  rewrite (check_lines_named_short cart_items db 0%Q Hall Hshort). reflexivity.
Qed.

End NamedRowsCheckout.

(** The scenarios of the specification, on named rows. *)
Example named_rows_short_stock_scenario :
  record_sale_with NamedRows clk0 [(1, 3, 5%Q); (2, 1, 2.5%Q)] 1 "cash" 0%Q None
                   pen_notebook_store
  = (Return sale_failed, pen_notebook_store).
Proof.
  apply record_sale_named_short_stock.
  - repeat constructor; simpl; try lia; vm_compute; discriminate.
  - apply Exists_cons_tl, Exists_cons_hd. exists 0. split; [reflexivity|lia].
Qed.

Example named_rows_pen_scenario :
  let r := record_sale_with NamedRows clk0 [(1, 2, 5%Q)] 1 "cash" 0%Q None
                            pen_store in
  fst r = Return (Some 10%Q, Some "2024-05-01 12:00:00")
  /\ stock_of (snd r) 1 = Some 8
  /\ map s_total (sales (snd r)) = [10%Q].
Proof. repeat split; reflexivity. Qed.

(** ** Allocation on a committed cart *)

Section Allocation.

Variables (clk : clock) (staff_id : Z) (payment_method : string)
          (customer_id : option Z).

(** When the first loop runs to its end it has accumulated the line
    totals in order and has not touched the sales table. *)
Lemma check_lines_done (rf : row_factory) (cart_items : list cart_line) :
  forall working total_sale working' total_sale',
    check_lines rf cart_items working total_sale
    = Return (Some (working', total_sale')) ->
    total_sale' = fold_left add_line cart_items total_sale
    /\ sales working' = sales working.
Proof.
  induction cart_items as [|[[product_id quantity] price] rest IH];
    intros working total_sale working' total_sale' H; simpl in H.
  - inversion H; subst. split; reflexivity.
  - destruct (subscript_name rf (fetchone (select_product working product_id))
                             p_stock) as [stock|e]; simpl in H; [|discriminate].
    destruct (subscript_name rf (fetchone (select_product working product_id))
                             p_name) as [name|e]; simpl in H; [|discriminate].
    destruct (stock <? quantity); [discriminate|].
    apply IH in H. destruct H as [Ht Hs]. split; [exact Ht|exact Hs].
Qed.

(** The second loop appends one row per line, each with the [total] and
    [discount] it was given. *)
Lemma insert_lines_rows (lines : list cart_line) (total discount : Q)
    (date : string) :
  forall working,
    exists rows,
      sales (insert_lines lines total discount date staff_id payment_method
                          customer_id working)
      = (sales working ++ rows)%list
      /\ map (fun s => (s_product_id s, s_quantity s)) rows
         = map (fun line : cart_line => let '(p, q, _) := line in (p, q)) lines
      /\ Forall (fun s => s_total s = total /\ s_discount s = discount
                          /\ s_date s = date) rows.
Proof.
  induction lines as [|[[product_id quantity] price] rest IH]; intros working.
  - exists []. simpl. rewrite app_nil_r. repeat split. constructor.
  - simpl.
    destruct (IH (insert_sale product_id quantity total discount date staff_id
                              payment_method customer_id working))
      as [rows [Hs [Hm Hf]]].
    eexists (_ :: rows). split; [|split].
    + rewrite Hs. simpl. rewrite <- app_assoc. reflexivity.
    + simpl. rewrite Hm. reflexivity.
    + constructor; [simpl; repeat split | exact Hf].
Qed.



End Allocation.


(** * Integer binds *)

(** A call whose integer arguments all fit in 64 bits runs its
    statements; any other call leaves through the handler, whose log
    statement raises, and the database is the one passed in. *)
Lemma adjust_stock_in_range (product_id new_stock : Z) (db : database) :
  in_int64 product_id = true -> in_int64 new_stock = true ->
  adjust_stock product_id new_stock db
  = (Return tt, update_stock (fun _ => new_stock) product_id db).
Proof.
  intros Hp Hn. unfold adjust_stock, bind_int. rewrite Hp, Hn. reflexivity.
Qed.

Lemma adjust_stock_cases (product_id new_stock : Z) (db : database) :
  adjust_stock product_id new_stock db
  = (Return tt, update_stock (fun _ => new_stock) product_id db)
  \/ adjust_stock product_id new_stock db = (Raise NameError, db).
Proof.
  unfold adjust_stock, bind_int.
  destruct (in_int64 new_stock); destruct (in_int64 product_id); simpl; auto.
Qed.

Lemma delete_product_in_range (product_id : Z) (db : database) :
  in_int64 product_id = true ->
  delete_product product_id db
  = (Return tt,
     mkDatabase
       (filter (fun p => negb (p_id p =? product_id)) (products db))
       (filter (fun s => negb (s_product_id s =? product_id)) (sales db))
       (customers db)
       (seq_products db) (seq_sales db) (seq_customers db)).
Proof.
  intros Hp. unfold delete_product, bind_int. rewrite Hp. reflexivity.
Qed.

Lemma delete_product_out_of_range (product_id : Z) (db : database) :
  in_int64 product_id = false ->
  delete_product product_id db = (Raise NameError, db).
Proof.
  intros Hp. unfold delete_product, bind_int. rewrite Hp. reflexivity.
Qed.

Lemma add_product_out_of_range clk price_repr image_written name price stock
    category db :
  in_int64 stock = false ->
  add_product clk price_repr image_written name price stock category db
  = (Raise NameError, db).
Proof.
  intros Hs. unfold add_product, bind_int. rewrite Hs. reflexivity.
Qed.

Lemma add_product_in_range clk price_repr image_written name price stock
    category db :
  in_int64 stock = true ->
  add_product clk price_repr image_written name price stock category db
  = let barcode := name ++ "_" ++ price_repr ++ "_" ++ now_hms clk in
    if existsb (fun p => String.eqb (p_barcode p) barcode) (products db)
    then (Raise ValueError, db)
    else
      let id := next_rowid (seq_products db) (map p_id (products db)) in
      let db' := mkDatabase
                   (products db ++ [mkProduct id name price stock category barcode])
                   (sales db) (customers db)
                   id (seq_sales db) (seq_customers db) in
      match generate_barcode image_written barcode with
      | Return _ => (Return barcode, db')
      | Raise e => (_ <- log_traceback ;; Raise e, db')
      end.
Proof.
  intros Hs. unfold add_product, bind_int. rewrite Hs. reflexivity.
Qed.

Lemma add_customer_in_range (name email : string) (points : Z) (age : option Z)
    (db : database) :
  in_int64 points = true -> bind_optional_int age = Return tt ->
  add_customer name email points age db
  = if existsb (fun c => String.eqb (c_email c) email) (customers db)
    then (subscript_index
            (fetchone (filter (fun c => String.eqb (c_email c) email)
                              (customers db))) c_id, db)
    else
      let id := next_rowid (seq_customers db) (map c_id (customers db)) in
      (Return id,
       mkDatabase (products db) (sales db)
         (customers db ++ [mkCustomer id name email points age])
         (seq_products db) (seq_sales db) id).
Proof.
  intros Hp Ha. unfold add_customer, bind_int. rewrite Hp. simpl.
  rewrite Ha. reflexivity.
Qed.

Lemma add_customer_out_of_range (name email : string) (points : Z)
    (age : option Z) (db : database) :
  (_ <- bind_int points ;; bind_optional_int age) <> Return tt ->
  add_customer name email points age db = (Raise NameError, db).
Proof.
  intros H. unfold add_customer.
  destruct (_ <- bind_int points ;; bind_optional_int age) as [[]|e];
    [congruence|reflexivity].
Qed.

(** * Inventory *)

(** C5 (claim as stated, refuted).  Setting the Pen's stock to -5 does not
    fail, and the stored stock changes from 10 to -5. *)
Lemma adjust_stock_negative_not_rejected :
  -5 < 0
  /\ fst (adjust_stock 1 (-5) pen_store) = Return tt
  /\ stock_of pen_store 1 = Some 10
  /\ stock_of (snd (adjust_stock 1 (-5) pen_store)) 1 = Some (-5).
Proof. repeat split; reflexivity. Qed.

(** C5 (amended).  [adjust_stock] does not look at the sign: for every
    product id and every new stock that fit in a 64-bit integer, negative
    or not, it raises no error, the product with that id (if there is one)
    then has the new stock, and every other product keeps its stock.
    Negative entries are turned away by its caller [apply_stock_adjust],
    before the call, with the database unchanged. *)
Theorem adjust_stock_sets_any_value :
  forall product_id new_stock db,
    in_int64 product_id = true ->
    in_int64 new_stock = true ->
    fst (adjust_stock product_id new_stock db) = Return tt
    /\ stock_of (snd (adjust_stock product_id new_stock db)) product_id
       = option_map (fun _ => new_stock) (stock_of db product_id)
    /\ (forall other, other <> product_id ->
          stock_of (snd (adjust_stock product_id new_stock db)) other
          = stock_of db other)
    /\ (new_stock < 0 ->
          apply_stock_adjust product_id new_stock db
          = (Return (StockWarning "Stock cannot be negative."), db)).
Proof.
  intros product_id new_stock db Hp Hn.
  rewrite (adjust_stock_in_range product_id new_stock db Hp Hn). simpl.
  split; [reflexivity|]. split; [|split].
  - rewrite stock_of_update_stock, Z.eqb_refl. reflexivity.
  - intros other Hne. rewrite stock_of_update_stock.
    apply Z.eqb_neq in Hne. rewrite Hne. reflexivity.
  - intros Hneg. unfold apply_stock_adjust.
    apply Z.ltb_lt in Hneg. rewrite Hneg. reflexivity.
Qed.

Lemma adjust_stock_sets_any_value_witness :
  stock_of (snd (adjust_stock 1 (-5) pen_store)) 1 = Some (-5)
  /\ stock_of (snd (adjust_stock 1 (-5) pen_notebook_store)) 2 = Some 0
  /\ apply_stock_adjust 1 (-5) pen_store
     = (Return (StockWarning "Stock cannot be negative."), pen_store).
Proof.
  destruct (adjust_stock_sets_any_value 1 (-5) pen_store eq_refl eq_refl)
    as [_ [Hset [_ Hui]]].
  destruct (adjust_stock_sets_any_value 1 (-5) pen_notebook_store eq_refl eq_refl)
    as [_ [_ [Hother _]]].
  split; [exact Hset|]. split.
  - rewrite (Hother 2); [reflexivity|discriminate].
  - apply Hui. reflexivity.
Defined.

(** A filter whose test holds on every element keeps the list. *)
Lemma filter_all {A : Type} (f : A -> bool) (l : list A) :
  Forall (fun x => f x = true) l -> filter f l = l.
Proof.
  induction 1 as [|x xs Hx _ IH]; simpl; [reflexivity|].
  rewrite Hx, IH. reflexivity.
Qed.

(** C9 (claim as stated, refuted).  No product has the id [2 ^ 63], and
    deleting it raises: the id does not fit the bind of line 112. *)
Lemma delete_unknown_product_raises :
  ~ In (2 ^ 63) (map p_id (products pen_store))
  /\ fst (delete_product (2 ^ 63) pen_store) = Raise NameError.
Proof.
  split; [|reflexivity].
  simpl. intros [H|[]]. discriminate H.
Qed.

(** C9 (amended).  Deleting a product id that fits in a 64-bit integer and
    that no product has raises nothing and leaves the database -- products
    and sales -- as it was.  The database is one that respects the FOREIGN
    KEY declared on line 55: every sale row refers to a product that is
    present. *)
Theorem delete_unknown_product_noop :
  forall product_id db,
    in_int64 product_id = true ->
    sales_reference_products db ->
    ~ In product_id (map p_id (products db)) ->
    delete_product product_id db = (Return tt, db).
Proof.
  intros product_id db Hrange Href Hnot.
  rewrite (delete_product_in_range product_id db Hrange).
  assert (Hp : filter (fun p => negb (p_id p =? product_id)) (products db)
               = products db).
  { apply filter_all, Forall_forall. intros p Hin.
    apply negb_true_iff, Z.eqb_neq. intro E. apply Hnot.
    rewrite <- E. apply in_map. exact Hin. }
  assert (Hs : filter (fun s => negb (s_product_id s =? product_id)) (sales db)
               = sales db).
  { apply filter_all. unfold sales_reference_products in Href.
    eapply Forall_impl; [|exact Href]. intros s Hin.
    apply negb_true_iff, Z.eqb_neq. intro E. apply Hnot.
    rewrite <- E. exact Hin. }
  rewrite Hp, Hs. destruct db; reflexivity.
Qed.

Lemma delete_unknown_product_noop_witness :
  sales_reference_products pen_store_with_sale
  /\ ~ In 7 (map p_id (products pen_store_with_sale))
  /\ delete_product 7 pen_store_with_sale = (Return tt, pen_store_with_sale).
Proof.
  assert (Href : sales_reference_products pen_store_with_sale).
  { repeat constructor. }
  assert (Hnot : ~ In 7 (map p_id (products pen_store_with_sale))).
  { simpl. intros [H|[]]. discriminate H. }
  split; [exact Href|]. split; [exact Hnot|].
  exact (delete_unknown_product_noop 7 pen_store_with_sale eq_refl Href Hnot).
Defined.

(** ** Stock never below zero *)

Lemma products_update_stock_ids (f : Z -> Z) (product_id : Z) (db : database) :
  map p_id (products (update_stock f product_id db)) = map p_id (products db).
Proof.
  unfold update_stock. simpl. rewrite map_map. apply map_ext.
  intros p. destruct (p_id p =? product_id); reflexivity.
Qed.

(** An UPDATE keeps all stocks at or above zero when it does so on the
    rows it selects. *)
Lemma stock_nonneg_update_stock (f : Z -> Z) (product_id : Z) (db : database) :
  stock_nonneg db ->
  (forall p, In p (products db) -> p_id p = product_id -> 0 <= f (p_stock p)) ->
  stock_nonneg (update_stock f product_id db).
Proof.
  unfold stock_nonneg, update_stock. simpl. intros Hdb Hf.
  rewrite Forall_forall in *. intros p' Hin.
  apply in_map_iff in Hin. destruct Hin as [p [Hp Hin]]. subst p'.
  destruct (p_id p =? product_id) eqn:E.
  - simpl. apply Hf; [exact Hin|]. apply Z.eqb_eq. exact E.
  - apply Hdb. exact Hin.
Qed.

Lemma stock_nonneg_add_product clk price_repr image_written name price stock
    category db :
  0 <= stock -> stock_nonneg db ->
  stock_nonneg (snd (add_product clk price_repr image_written name price stock
                                 category db)).
Proof.
  intros Hstock Hdb.
  destruct (in_int64 stock) eqn:Hrange;
    [|rewrite add_product_out_of_range by exact Hrange; exact Hdb].
  rewrite add_product_in_range by exact Hrange. cbv zeta.
  destruct (existsb _ (products db)); [exact Hdb|].
  assert (H : stock_nonneg
                (mkDatabase
                   (products db ++
                    [mkProduct (next_rowid (seq_products db) (map p_id (products db)))
                               name price stock category
                               (name ++ "_" ++ price_repr ++ "_" ++ now_hms clk)])
                   (sales db) (customers db)
                   (next_rowid (seq_products db) (map p_id (products db)))
                   (seq_sales db) (seq_customers db))).
  { unfold stock_nonneg. simpl. apply Forall_app. split; [exact Hdb|].
    constructor; [exact Hstock|constructor]. }
  destruct (generate_barcode image_written _); exact H.
Qed.

Lemma stock_nonneg_delete_product product_id db :
  stock_nonneg db -> stock_nonneg (snd (delete_product product_id db)).
Proof.
  intros Hdb.
  destruct (in_int64 product_id) eqn:Hrange;
    [|rewrite delete_product_out_of_range by exact Hrange; exact Hdb].
  rewrite delete_product_in_range by exact Hrange.
  unfold stock_nonneg in *. simpl.
  rewrite Forall_forall in *. intros p Hin.
  apply filter_In in Hin. apply Hdb, Hin.
Qed.

Lemma stock_nonneg_adjust_stock product_id new_stock db :
  0 <= new_stock -> stock_nonneg db ->
  stock_nonneg (snd (adjust_stock product_id new_stock db)).
Proof.
  intros Hnew Hdb.
  destruct (adjust_stock_cases product_id new_stock db) as [H|H]; rewrite H;
    [|exact Hdb].
  apply stock_nonneg_update_stock; [exact Hdb|intros; exact Hnew].
Qed.

Lemma stock_nonneg_process_return sale_id product_id qty db :
  0 <= qty -> stock_nonneg db ->
  stock_nonneg (snd (process_return sale_id product_id qty db)).
Proof.
  intros Hqty Hdb. unfold process_return. simpl.
  apply stock_nonneg_update_stock.
  - exact Hdb.
  - intros p Hin _. simpl in Hin. unfold stock_nonneg in Hdb.
    rewrite Forall_forall in Hdb. specialize (Hdb p Hin). lia.
Qed.

(** As written, [record_sale] hands back the database it was given. *)
Lemma record_sale_keeps_database clk cart_items staff_id payment_method discount
    customer_id db :
  snd (record_sale clk cart_items staff_id payment_method discount customer_id db)
  = db.
Proof.
  destruct cart_items as [|line rest].
  - reflexivity.
  - rewrite record_sale_line_raises. reflexivity.
Qed.

Lemma stock_nonneg_perform (o : operation) (db : database) :
  supplies_nonneg_stock o -> stock_nonneg db -> stock_nonneg (perform o db).
Proof.
  destruct o; simpl; intros Ho Hdb.
  - apply stock_nonneg_add_product; assumption.
  - apply stock_nonneg_adjust_stock; assumption.
  - apply stock_nonneg_delete_product; exact Hdb.
  - fold record_sale. rewrite record_sale_keeps_database. exact Hdb.
  - apply stock_nonneg_process_return; assumption.
Qed.

(** C2 (claim as stated, refuted).  From the Pen store, where every stock
    is at least zero, one [adjust_stock] reaches a negative stock. *)
Lemma negative_stock_reachable :
  stock_nonneg pen_store
  /\ ~ stock_nonneg (perform_all [AdjustStock 1 (-5)] pen_store).
Proof.
  split.
  - repeat constructor. simpl. lia.
  - intro H. inversion H as [|p ps Hneg _]; subst. simpl in Hneg. lia.
Qed.

(** C2 (amended).  Starting from a database where every stock is at least
    zero, every stock is at least zero after any sequence of
    [add_product], [adjust_stock], [delete_product], [record_sale] and
    return processing in which the stock given to [add_product], the value
    given to [adjust_stock] and the quantity given back by a return are at
    least zero. *)
Theorem stock_nonneg_preserved :
  forall ops db,
    Forall supplies_nonneg_stock ops ->
    stock_nonneg db ->
    stock_nonneg (perform_all ops db).
Proof.
  unfold perform_all. induction ops as [|o ops IH]; intros db Hops Hdb.
  - exact Hdb.
  - inversion Hops; subst. simpl. apply IH; [assumption|].
    apply stock_nonneg_perform; assumption.
Qed.

Lemma stock_nonneg_preserved_witness :
  stock_nonneg
    (perform_all
       [AddProduct clk0 "2.5" true "Notebook" 2.5%Q 4 "Stationery";
        AdjustStock 1 3;
        RecordSale clk0 [(1, 2, 5%Q)] 1 "cash" 0%Q None;
        ProcessReturn 1 1 2;
        DeleteProduct 2]
       pen_store).
Proof.
  apply stock_nonneg_preserved.
  - repeat constructor; simpl; lia.
  - repeat constructor. simpl. lia.
Defined.

(** ** The invariant with a checkout that commits

    With named rows [record_sale_with] does decrement stock.  The invariant
    then also needs the PRIMARY KEY of [products]: line 145 reads the stock
    of the first row with the id, line 155 updates every row with it. *)

Section StockWithNamedRows.

Lemma fetch_unique (ps : list product) (p : product) :
  NoDup (map p_id ps) -> In p ps ->
  fetchone (filter (fun x => p_id x =? p_id p) ps) = Some p.
Proof.
  induction ps as [|x xs IH]; simpl; intros Hnd Hin; [contradiction|].
  inversion Hnd as [|? ? Hnotin Hnd']; subst.
  destruct Hin as [->|Hin].
  - rewrite Z.eqb_refl. reflexivity.
  - destruct (p_id x =? p_id p) eqn:E.
    + apply Z.eqb_eq in E. exfalso. apply Hnotin. rewrite E.
      apply in_map. exact Hin.
    + apply IH; assumption.
Qed.

Lemma next_rowid_fresh (seq : Z) (ids : list Z) :
  ~ In (next_rowid seq ids) ids.
Proof.
  unfold next_rowid.
  assert (H : forall l s x, In x l -> x <= fold_left Z.max l s).
  { assert (Hmono : forall l s, s <= fold_left Z.max l s).
    { induction l as [|y ys IHl]; intros s; simpl; [lia|].
      specialize (IHl (Z.max s y)). lia. }
    induction l as [|y ys IHl]; intros s x Hin; simpl in *; [contradiction|].
    destruct Hin as [->|Hin].
    - specialize (Hmono ys (Z.max s x)). lia.
    - apply IHl. exact Hin. }
  intro Hin. specialize (H _ seq _ Hin). lia.
Qed.

Lemma NoDup_map_filter {A B : Type} (f : A -> B) (g : A -> bool) (l : list A) :
  NoDup (map f l) -> NoDup (map f (filter g l)).
Proof.
  induction l as [|x xs IH]; simpl; intros Hnd; [constructor|].
  inversion Hnd as [|? ? Hnotin Hnd']; subst.
  destruct (g x); simpl; [|apply IH; exact Hnd'].
  constructor; [|apply IH; exact Hnd'].
  intro Hin. apply Hnotin. apply in_map_iff in Hin.
  destruct Hin as [y [Hy Hin]]. apply filter_In in Hin.
  rewrite <- Hy. apply in_map. apply Hin.
Qed.

Lemma products_insert_lines lines total discount date staff_id payment_method
    customer_id :
  forall working,
    products (insert_lines lines total discount date staff_id payment_method
                           customer_id working) = products working.
Proof.
  induction lines as [|[[product_id quantity] price] rest IH]; intros working;
    simpl; [reflexivity|].
  rewrite IH. reflexivity.
Qed.

(** The first loop keeps the key and the invariant. *)
Lemma check_lines_stock_nonneg (rf : row_factory) (cart_items : list cart_line) :
  forall working total_sale working' total_sale',
    product_ids_unique working -> stock_nonneg working ->
    check_lines rf cart_items working total_sale
    = Return (Some (working', total_sale')) ->
    product_ids_unique working' /\ stock_nonneg working'.
Proof.
  induction cart_items as [|[[product_id quantity] price] rest IH];
    intros working total_sale working' total_sale' Hkey Hdb H.
  - inversion H; subst. split; assumption.
  - destruct rf; [rewrite check_lines_tuple_rows in H; discriminate|].
    rewrite check_lines_named_step in H.
    destruct (stock_of working product_id) as [stock|] eqn:Hst;
      [|discriminate].
    destruct (stock <? quantity) eqn:Hlt; [discriminate|].
    apply Z.ltb_ge in Hlt.
    apply IH in H; [exact H| |].
    + unfold product_ids_unique. rewrite products_update_stock_ids. exact Hkey.
    + apply stock_nonneg_update_stock; [exact Hdb|].
      intros p Hin Hid.
      pose proof (fetch_unique (products working) p Hkey Hin) as Hfetch.
      unfold stock_of, select_product in Hst.
      rewrite Hid in Hfetch. rewrite Hfetch in Hst. simpl in Hst.
      inversion Hst; subst. lia.
Qed.

Lemma record_sale_with_stock_nonneg rf clk cart_items staff_id payment_method
    discount customer_id db :
  product_ids_unique db -> stock_nonneg db ->
  let db' := snd (record_sale_with rf clk cart_items staff_id payment_method
                                   discount customer_id db) in
  product_ids_unique db' /\ stock_nonneg db'.
Proof.
  intros Hkey Hdb. unfold record_sale_with.
  destruct (check_lines rf cart_items db 0%Q)
    as [[[working total_sale]|]|e] eqn:Hcheck; simpl; try (split; assumption).
  apply check_lines_stock_nonneg in Hcheck; [|assumption|assumption].
  unfold product_ids_unique, stock_nonneg.
  rewrite products_insert_lines. exact Hcheck.
Qed.

Lemma perform_with_stock_nonneg (rf : row_factory) (o : operation) (db : database) :
  supplies_nonneg_stock o ->
  product_ids_unique db -> stock_nonneg db ->
  product_ids_unique (perform_with rf o db) /\ stock_nonneg (perform_with rf o db).
Proof.
  destruct o; cbn [perform_with supplies_nonneg_stock]; intros Ho Hkey Hdb.
  - split; [|apply stock_nonneg_add_product; assumption].
    destruct (in_int64 stock) eqn:Hrange;
      [|rewrite add_product_out_of_range by exact Hrange; exact Hkey].
    rewrite add_product_in_range by exact Hrange. cbv zeta.
    destruct (existsb _ (products db)); [exact Hkey|].
    assert (H : NoDup (map p_id (products db)
                       ++ [next_rowid (seq_products db) (map p_id (products db))])).
    { apply NoDup_app; [exact Hkey| repeat constructor; intros [] |].
      intros x Hin [Hx|[]]. subst x. exact (next_rowid_fresh _ _ Hin). }
    destruct (generate_barcode image_written _);
      unfold product_ids_unique; simpl; rewrite map_app; exact H.
  - split; [|apply stock_nonneg_adjust_stock; assumption].
    destruct (adjust_stock_cases product_id new_stock db) as [H|H]; rewrite H;
      [|exact Hkey].
    unfold product_ids_unique. simpl snd.
    rewrite products_update_stock_ids. exact Hkey.
  - split; [|apply stock_nonneg_delete_product; exact Hdb].
    destruct (in_int64 product_id) eqn:Hrange;
      [|rewrite delete_product_out_of_range by exact Hrange; exact Hkey].
    rewrite delete_product_in_range by exact Hrange.
    unfold product_ids_unique. simpl. apply NoDup_map_filter. exact Hkey.
  - apply record_sale_with_stock_nonneg; assumption.
  - split; [|apply stock_nonneg_process_return; assumption].
    unfold product_ids_unique, process_return. simpl snd.
    rewrite products_update_stock_ids. exact Hkey.
Qed.

(** The amended invariant holds as well when checkout commits. *)
Lemma stock_nonneg_preserved_with (rf : row_factory) (ops : list operation) :
  forall db,
    Forall supplies_nonneg_stock ops ->
    product_ids_unique db -> stock_nonneg db ->
    stock_nonneg (fold_left (fun d o => perform_with rf o d) ops db).
Proof.
  induction ops as [|o ops IH]; intros db Hops Hkey Hdb; [exact Hdb|].
  inversion Hops; subst. simpl.
  destruct (perform_with_stock_nonneg rf o db) as [Hkey' Hdb']; try assumption.
  apply IH; assumption.
Qed.

End StockWithNamedRows.

(** ** Sale rows refer to products

    The hypothesis of [delete_unknown_product_noop] is an invariant of the
    operations, with either row factory, and holds in the empty database. *)

Section References.

Lemma check_lines_products_exist (rf : row_factory) (cart_items : list cart_line) :
  forall working total_sale working' total_sale',
    check_lines rf cart_items working total_sale
    = Return (Some (working', total_sale')) ->
    Forall (fun line : cart_line =>
              In (fst (fst line)) (map p_id (products working))) cart_items
    /\ map p_id (products working') = map p_id (products working).
Proof.
  induction cart_items as [|[[product_id quantity] price] rest IH];
    intros working total_sale working' total_sale' H.
  - inversion H; subst. split; [constructor|reflexivity].
  - destruct rf; [rewrite check_lines_tuple_rows in H; discriminate|].
    rewrite check_lines_named_step in H.
    destruct (stock_of working product_id) as [stock|] eqn:Hst;
      [|discriminate].
    destruct (stock <? quantity); [discriminate|].
    apply IH in H. destruct H as [Hrest Hids].
    rewrite products_update_stock_ids in Hrest, Hids.
    split; [|exact Hids].
    constructor; [|exact Hrest]. simpl.
    unfold stock_of, select_product, fetchone in Hst.
    destruct (filter (fun p => p_id p =? product_id) (products working))
      as [|p ps] eqn:Hf; [discriminate|].
    assert (Hin : In p (filter (fun p => p_id p =? product_id) (products working)))
      by (rewrite Hf; left; reflexivity).
    apply filter_In in Hin. destruct Hin as [Hin Hid].
    apply Z.eqb_eq in Hid. rewrite <- Hid. apply in_map. exact Hin.
Qed.

Lemma record_sale_with_references rf clk cart_items staff_id payment_method
    discount customer_id db :
  sales_reference_products db ->
  sales_reference_products
    (snd (record_sale_with rf clk cart_items staff_id payment_method discount
                           customer_id db)).
Proof.
  intros Href. unfold record_sale_with.
  destruct (check_lines rf cart_items db 0%Q)
    as [[[working total_sale]|]|e] eqn:Hcheck; simpl; try exact Href.
  pose proof (check_lines_done _ _ _ _ _ _ Hcheck) as [_ Hsales].
  apply check_lines_products_exist in Hcheck. destruct Hcheck as [Hlines Hids].
  match goal with
  | |- context [insert_lines cart_items ?t ?d ?dt ?st ?pm ?cu working] =>
      destruct (insert_lines_rows st pm cu cart_items t d dt working)
        as [rows [Hrows [Hmap _]]]
  end.
  unfold sales_reference_products.
  rewrite products_insert_lines, Hrows, Hsales, Hids.
  apply Forall_app. split; [exact Href|].
  assert (Hpids : map s_product_id rows = map (fun l : cart_line => fst (fst l))
                                              cart_items).
  { transitivity (map fst (map (fun s => (s_product_id s, s_quantity s)) rows)).
    - rewrite map_map. reflexivity.
    - rewrite Hmap, map_map. apply map_ext. intros [[p q] pr]. reflexivity. }
  rewrite Forall_forall in *. intros s Hin.
  assert (Hs : In (s_product_id s) (map s_product_id rows))
    by (apply in_map; exact Hin).
  rewrite Hpids in Hs. apply in_map_iff in Hs.
  destruct Hs as [line [Hl Hline]]. rewrite <- Hl. apply Hlines. exact Hline.
Qed.

Lemma perform_with_references (rf : row_factory) (o : operation) (db : database) :
  sales_reference_products db ->
  sales_reference_products (perform_with rf o db).
Proof.
  unfold sales_reference_products.
  destruct o; cbn [perform_with]; intros Href.
  - destruct (in_int64 stock) eqn:Hrange;
      [|rewrite add_product_out_of_range by exact Hrange; exact Href].
    rewrite add_product_in_range by exact Hrange. cbv zeta.
    destruct (existsb _ (products db)); [exact Href|].
    destruct (generate_barcode image_written _); simpl;
      (eapply Forall_impl; [|exact Href]); intros s Hin;
      rewrite map_app; apply in_or_app; left; exact Hin.
  - destruct (adjust_stock_cases product_id new_stock db) as [H|H]; rewrite H;
      [|exact Href].
    simpl. rewrite map_map.
    erewrite map_ext; [exact Href|].
    intros p. destruct (p_id p =? product_id); reflexivity.
  - destruct (in_int64 product_id) eqn:Hrange;
      [|rewrite delete_product_out_of_range by exact Hrange; exact Href].
    rewrite delete_product_in_range by exact Hrange. simpl.
    rewrite Forall_forall in *. intros s Hin.
    apply filter_In in Hin. destruct Hin as [Hin Hne].
    specialize (Href s Hin). apply in_map_iff in Href.
    destruct Href as [p [Hp Hpin]].
    apply in_map_iff. exists p. split; [exact Hp|].
    apply filter_In. split; [exact Hpin|]. rewrite Hp. exact Hne.
  - apply record_sale_with_references. exact Href.
  - simpl. rewrite map_map.
    erewrite map_ext with (g := p_id);
      [|intros p; destruct (p_id p =? product_id); reflexivity].
    rewrite Forall_forall in *. intros s Hin.
    apply filter_In in Hin. apply Href, Hin.
Qed.

(** Every database reached from the empty one has the property. *)
Lemma reachable_references (rf : row_factory) (ops : list operation) :
  sales_reference_products
    (fold_left (fun d o => perform_with rf o d) ops empty_database).
Proof.
  assert (H : forall db, sales_reference_products db ->
                sales_reference_products
                  (fold_left (fun d o => perform_with rf o d) ops db)).
  { induction ops as [|o ops IH]; intros db Hdb; [exact Hdb|].
    simpl. apply IH, perform_with_references, Hdb. }
  apply H. constructor.
Qed.

End References.

(** * Customers *)

(** The handler of line 179 finds the row the INSERT collided with. *)
Lemma fetch_existing_email (email : string) (cs : list customer) :
  existsb (fun c => String.eqb (c_email c) email) cs = true ->
  exists c, fetchone (filter (fun c => String.eqb (c_email c) email) cs) = Some c.
Proof.
  induction cs as [|c cs IH]; simpl; intros H; [discriminate|].
  destruct (String.eqb (c_email c) email); simpl.
  - exists c. reflexivity.
  - apply IH. exact H.
Qed.

(** After an insert, the first row with the email is the new one. *)
Lemma fetch_inserted_email (email : string) (cs : list customer) (c : customer) :
  existsb (fun c => String.eqb (c_email c) email) cs = false ->
  c_email c = email ->
  fetchone (filter (fun c => String.eqb (c_email c) email) (cs ++ [c])) = Some c.
Proof.
  intros Hnone Hc. induction cs as [|x xs IH]; simpl in *.
  - rewrite Hc, String.eqb_refl. reflexivity.
  - apply orb_false_elim in Hnone. destruct Hnone as [Hx Hxs].
    rewrite Hx. apply IH. exact Hxs.
Qed.

Lemma fetch_in {A : Type} (f : A -> bool) (l : list A) (x : A) :
  fetchone (filter f l) = Some x -> In x l /\ f x = true.
Proof.
  intros H. apply filter_In. unfold fetchone in H.
  destruct (filter f l) as [|y ys]; [discriminate|].
  inversion H; subst. left. reflexivity.
Qed.

(** C6 (claim as stated, refuted).  A second call with the same email
    whose [points] do not fit in a 64-bit integer does not return the id of
    the stored customer: the bind of line 174 fails before the UNIQUE
    constraint is looked at, and the call raises. *)
Lemma add_customer_second_call_raises :
  fst (add_customer "Al" "al@example.org" 0 None empty_database) = Return 1
  /\ fst (add_customer "Al" "al@example.org" (2 ^ 63) None
                       (snd (add_customer "Al" "al@example.org" 0 None
                                          empty_database)))
     = Raise NameError.
Proof. split; reflexivity. Qed.

(** C6 (amended).  Two calls of [add_customer] with the same email, with
    points and ages that fit in a 64-bit integer, return the same id; that
    id is the id of a stored customer with this email; and the second call
    leaves the database as the first one left it, whatever name, points
    and age it is given. *)
Theorem add_customer_idempotent :
  forall name1 points1 age1 name2 points2 age2 email db,
    in_int64 points1 = true -> bind_optional_int age1 = Return tt ->
    in_int64 points2 = true -> bind_optional_int age2 = Return tt ->
    let first := add_customer name1 email points1 age1 db in
    let second := add_customer name2 email points2 age2 (snd first) in
    exists id,
      fst first = Return id
      /\ fst second = Return id
      /\ snd second = snd first
      /\ exists c, In c (customers (snd first))
                   /\ c_id c = id /\ c_email c = email.
Proof.
  intros name1 points1 age1 name2 points2 age2 email db Hp1 Ha1 Hp2 Ha2
         first second.
  subst second first.
  destruct (existsb (fun c => String.eqb (c_email c) email) (customers db))
    eqn:Hex.
  - destruct (fetch_existing_email _ _ Hex) as [c Hc].
    assert (Hcall : forall name points age,
               in_int64 points = true -> bind_optional_int age = Return tt ->
               add_customer name email points age db = (Return (c_id c), db)).
    { intros name points age Hp Ha.
      rewrite (add_customer_in_range name email points age db Hp Ha).
      rewrite Hex, Hc. reflexivity. }
    rewrite (Hcall name1 points1 age1 Hp1 Ha1). simpl.
    rewrite (Hcall name2 points2 age2 Hp2 Ha2). simpl.
    exists (c_id c). repeat split.
    apply fetch_in in Hc. destruct Hc as [Hin Hemail].
    exists c. split; [exact Hin|]. split; [reflexivity|].
    apply String.eqb_eq. exact Hemail.
  - set (id := next_rowid (seq_customers db) (map c_id (customers db))).
    set (row := mkCustomer id name1 email points1 age1).
    set (db1 := mkDatabase (products db) (sales db) (customers db ++ [row])
                           (seq_products db) (seq_sales db) id).
    assert (Hfirst : add_customer name1 email points1 age1 db = (Return id, db1)).
    { rewrite (add_customer_in_range name1 email points1 age1 db Hp1 Ha1).
      rewrite Hex. reflexivity. }
    assert (Hsecond : add_customer name2 email points2 age2 db1 = (Return id, db1)).
    { rewrite (add_customer_in_range name2 email points2 age2 db1 Hp2 Ha2).
      simpl customers.
      rewrite existsb_app. simpl existsb. rewrite String.eqb_refl.
      rewrite orb_true_r.
      rewrite (fetch_inserted_email email (customers db) row Hex eq_refl).
      reflexivity. }
    rewrite Hfirst. simpl. rewrite Hsecond. simpl.
    exists id. repeat split.
    exists row. split; [|split; reflexivity].
    apply in_or_app. right. left. reflexivity.
Qed.

Lemma add_customer_idempotent_witness :
  exists id,
    fst (add_customer "Al" "al@example.org" 0 None empty_database) = Return id
    /\ fst (add_customer "Alan" "al@example.org" 7 (Some 30)
                         (snd (add_customer "Al" "al@example.org" 0 None
                                            empty_database)))
       = Return id
    /\ snd (add_customer "Alan" "al@example.org" 7 (Some 30)
                         (snd (add_customer "Al" "al@example.org" 0 None
                                            empty_database)))
       = snd (add_customer "Al" "al@example.org" 0 None empty_database)
    /\ exists c,
         In c (customers (snd (add_customer "Al" "al@example.org" 0 None
                                            empty_database)))
         /\ c_id c = id /\ c_email c = "al@example.org".
Proof.
  exact (add_customer_idempotent "Al" 0 None "Alan" 7 (Some 30) "al@example.org"
                                 empty_database eq_refl eq_refl eq_refl eq_refl).
Defined.

(** * Reporting *)

(** C7.  When no sale row falls in the requested window,
    [get_sales_summary] returns [(0, 0)] and [get_avg_sale_value] returns
    [0]; this holds for today, week, month and all, and for any other
    period string. *)
Theorem empty_window_reports_zero :
  forall clk period db,
    sales_in_period clk period db = [] ->
    get_sales_summary clk period db = (0%Q, 0)
    /\ get_avg_sale_value clk period db = 0%Q.
Proof.
  intros clk period db Hempty.
  unfold get_sales_summary, get_avg_sale_value. rewrite Hempty.
  split; reflexivity.
Qed.

Lemma empty_window_reports_zero_witness :
  sales_in_period clk0 "today" pen_store_with_sale = []
  /\ sales pen_store_with_sale <> []
  /\ get_sales_summary clk0 "today" pen_store_with_sale = (0%Q, 0)
  /\ get_avg_sale_value clk0 "today" pen_store_with_sale = 0%Q.
Proof.
  split; [reflexivity|]. split; [discriminate|].
  exact (empty_window_reports_zero clk0 "today" pen_store_with_sale eq_refl).
Defined.

(** C10.  For every period string other than today, week and month the
    [else] branch runs: the summary is the one of the whole sales table,
    the same as for all. *)
Theorem unknown_period_is_all_time :
  forall clk period db,
    period <> "today" -> period <> "week" -> period <> "month" ->
    get_sales_summary clk period db
    = (or_zero_real (sum_real (map s_total (sales db))),
       or_zero_int (sum_int (map s_quantity (sales db))))
    /\ get_sales_summary clk period db = get_sales_summary clk "all" db.
Proof.
  intros clk period db Ht Hw Hm.
  assert (Hrows : sales_in_period clk period db = sales db).
  { unfold sales_in_period.
    apply String.eqb_neq in Ht, Hw, Hm. rewrite Ht, Hw, Hm. reflexivity. }
  unfold get_sales_summary. rewrite Hrows. split; reflexivity.
Qed.

Lemma unknown_period_is_all_time_witness :
  get_sales_summary clk0 "year" pen_store_with_sale = (10%Q, 2)
  /\ get_sales_summary clk0 "year" pen_store_with_sale
     = get_sales_summary clk0 "all" pen_store_with_sale
  /\ get_sales_summary clk0 "today" pen_store_with_sale = (0%Q, 0).
Proof.
  destruct (unknown_period_is_all_time clk0 "year" pen_store_with_sale)
    as [Hall Hsame]; try discriminate.
  split; [exact Hall|]. split; [exact Hsame|reflexivity].
Defined.

(** * Further properties of the inventory store *)

(** What [add_product] and [delete_product] do to the products table and
    to its sequence value, whether the call returns or raises. *)
Lemma add_product_products clk price_repr image_written name price stock
    category db :
  let db' := snd (add_product clk price_repr image_written name price stock
                              category db) in
  db' = db
  \/ (in_int64 stock = true
      /\ products db'
         = (products db
            ++ [mkProduct (next_rowid (seq_products db) (map p_id (products db)))
                          name price stock category
                          (name ++ "_" ++ price_repr ++ "_" ++ now_hms clk)])%list
      /\ seq_products db' = next_rowid (seq_products db) (map p_id (products db))
      /\ sales db' = sales db).
Proof.
  intros db'. subst db'.
  destruct (in_int64 stock) eqn:Hrange;
    [|rewrite add_product_out_of_range by exact Hrange; left; reflexivity].
  rewrite add_product_in_range by exact Hrange. cbv zeta.
  destruct (existsb _ (products db)); [left; reflexivity|].
  right. destruct (generate_barcode image_written _); simpl; repeat split.
Qed.

Lemma delete_product_database (product_id : Z) (db : database) :
  snd (delete_product product_id db) = db
  \/ (in_int64 product_id = true
      /\ snd (delete_product product_id db)
         = mkDatabase
             (filter (fun p => negb (p_id p =? product_id)) (products db))
             (filter (fun s => negb (s_product_id s =? product_id)) (sales db))
             (customers db)
             (seq_products db) (seq_sales db) (seq_customers db)).
Proof.
  destruct (in_int64 product_id) eqn:Hrange.
  - right. rewrite delete_product_in_range by exact Hrange. split; reflexivity.
  - left. rewrite delete_product_out_of_range by exact Hrange. reflexivity.
Qed.

(** X1.  A second [add_product] with the same name and the same rendered
    price within the same clock second builds the same barcode: when both
    stocks fit in a 64-bit integer it raises [ValueError] and leaves the
    database as the first call left it, whatever the first call did and
    whatever the other arguments are. *)
Theorem add_product_same_second_rejected :
  forall clk price_repr name iw1 price1 stock1 category1
         iw2 price2 stock2 category2 db,
    in_int64 stock1 = true -> in_int64 stock2 = true ->
    let db1 := snd (add_product clk price_repr iw1 name price1 stock1
                                category1 db) in
    add_product clk price_repr iw2 name price2 stock2 category2 db1
    = (Raise ValueError, db1).
Proof.
  intros clk price_repr name iw1 price1 stock1 category1
         iw2 price2 stock2 category2 db H1 H2 db1. subst db1.
  assert (H : existsb (fun p => String.eqb (p_barcode p)
                                  (name ++ "_" ++ price_repr ++ "_" ++ now_hms clk))
                      (products (snd (add_product clk price_repr iw1 name price1
                                                  stock1 category1 db))) = true).
  { rewrite add_product_in_range by exact H1. cbv zeta.
    destruct (existsb _ (products db)) eqn:Hclash; [exact Hclash|].
    destruct (generate_barcode iw1 _); simpl;
      rewrite existsb_app; simpl; rewrite String.eqb_refl; apply orb_true_r. }
  revert H.
  generalize (snd (add_product clk price_repr iw1 name price1 stock1 category1 db)).
  intros db1 H. rewrite add_product_in_range by exact H2. cbv zeta.
  rewrite H. reflexivity.
Qed.

Lemma add_product_same_second_rejected_witness :
  add_product clk0 "5.0" true "Pen" 5%Q 3 "Office" pen_store
  = (Raise ValueError, pen_store).
Proof.
  exact (add_product_same_second_rejected clk0 "5.0" "Pen" true 5%Q 10
           "Stationery" true 5%Q 3 "Office" empty_database eq_refl eq_refl).
Defined.

(** X2.  When the barcode image cannot be written, the product row is
    committed all the same -- the database is the one a successful call
    produces -- but the caller gets [NameError]. *)
Theorem add_product_barcode_failure_keeps_product :
  forall clk price_repr name price stock category db barcode,
    fst (add_product clk price_repr true name price stock category db)
    = Return barcode ->
    add_product clk price_repr false name price stock category db
    = (Raise NameError,
       snd (add_product clk price_repr true name price stock category db))
    /\ existsb (fun p => String.eqb (p_barcode p) barcode)
               (products (snd (add_product clk price_repr true name price stock
                                           category db))) = true
    /\ existsb (fun p => String.eqb (p_barcode p) barcode) (products db) = false.
Proof.
  intros clk price_repr name price stock category db barcode.
  destruct (in_int64 stock) eqn:Hrange;
    [|rewrite add_product_out_of_range by exact Hrange; discriminate].
  rewrite !add_product_in_range by exact Hrange. cbv zeta.
  destruct (existsb _ (products db)) eqn:Hclash; simpl; [discriminate|].
  intros H. inversion H; subst barcode. split; [reflexivity|].
  split; [|exact Hclash].
  rewrite existsb_app. simpl. rewrite String.eqb_refl. apply orb_true_r.
Qed.

Lemma add_product_barcode_failure_keeps_product_witness :
  add_product clk0 "5.0" false "Pen" 5%Q 10 "Stationery" empty_database
  = (Raise NameError, pen_store)
  /\ stock_of pen_store 1 = Some 10.
Proof.
  split; [|reflexivity].
  exact (proj1 (add_product_barcode_failure_keeps_product
                  clk0 "5.0" "Pen" 5%Q 10 "Stationery" empty_database
                  "Pen_5.0_120000" eq_refl)).
Defined.

(** The recorded sequence value and the rowids bound the next rowid. *)
Lemma next_rowid_above (seq : Z) (ids : list Z) :
  seq < next_rowid seq ids /\ Forall (fun x => x < next_rowid seq ids) ids.
Proof.
  unfold next_rowid.
  assert (Hmono : forall l s, s <= fold_left Z.max l s).
  { induction l as [|y ys IHl]; intros s; simpl; [lia|].
    specialize (IHl (Z.max s y)). lia. }
  assert (Hall : forall l s, Forall (fun x => x <= fold_left Z.max l s) l).
  { induction l as [|y ys IHl]; intros s; simpl; constructor.
    - specialize (Hmono ys (Z.max s y)). lia.
    - apply IHl. }
  split.
  - specialize (Hmono ids seq). lia.
  - eapply Forall_impl; [|apply (Hall ids seq)]. simpl. intros x Hx. lia.
Qed.

(** X3.  Product ids are not reused.  In a database whose sequence value
    is at least every product id, delete any product and add a new one:
    every product then present either was there before, or has an id
    greater than every id that existed before the deletion. *)
Theorem product_id_not_reused :
  forall clk price_repr image_written name price stock category product_id db,
    Forall (fun p => p_id p <= seq_products db) (products db) ->
    let db' := snd (add_product clk price_repr image_written name price stock
                                category (snd (delete_product product_id db))) in
    forall p, In p (products db') ->
      In p (products db)
      \/ Forall (fun q => p_id q < p_id p) (products db).
Proof.
  intros clk price_repr image_written name price stock category product_id db
         Hseq db' p Hin.
  subst db'.
  assert (Hdel : incl (products (snd (delete_product product_id db))) (products db)
                 /\ seq_products (snd (delete_product product_id db))
                    = seq_products db).
  { destruct (delete_product_database product_id db) as [H|[_ H]]; rewrite H.
    - split; [apply incl_refl|reflexivity].
    - simpl. split; [|reflexivity]. intros q Hq. apply filter_In in Hq. apply Hq. }
  destruct Hdel as [Hincl Hseq'].
  destruct (add_product_products clk price_repr image_written name price stock
              category (snd (delete_product product_id db)))
    as [Hsame|[_ [Hprod _]]].
  - left. apply Hincl. rewrite <- Hsame. exact Hin.
  - rewrite Hprod in Hin. apply in_app_or in Hin. destruct Hin as [Hold|[Hnew|[]]].
    + left. apply Hincl. exact Hold.
    + right. subst p. simpl p_id. rewrite Hseq'.
      destruct (next_rowid_above (seq_products db)
                  (map p_id (products (snd (delete_product product_id db)))))
        as [Habove _].
      eapply Forall_impl; [|exact Hseq]. simpl. intros q Hq. lia.
Qed.

Lemma product_id_not_reused_witness :
  Forall (fun p => p_id p <= seq_products pen_store) (products pen_store)
  /\ (In (mkProduct 2 "Notebook" 2.5%Q 4 "Stationery" "Notebook_2.5_120000")
          (products pen_store)
      \/ Forall (fun q => p_id q < 2) (products pen_store)).
Proof.
  assert (Hseq : Forall (fun p => p_id p <= seq_products pen_store)
                        (products pen_store)).
  { repeat constructor. simpl. lia. }
  split; [exact Hseq|].
  apply (product_id_not_reused clk0 "2.5" true "Notebook" 2.5%Q 4 "Stationery"
                               1 pen_store Hseq).
  simpl. left. reflexivity.
Defined.

(** X4.  [delete_product] cascades: in a database whose stored ids are
    64-bit integers, afterwards no product has the id and no sale row
    refers to it, while every other product, every sale of another product
    and the customers are kept. *)
Theorem delete_product_cascades :
  forall product_id db,
    stored_ids_in_range db ->
    let db' := snd (delete_product product_id db) in
    ~ In product_id (map p_id (products db'))
    /\ ~ In product_id (map s_product_id (sales db'))
    /\ (forall p, In p (products db) -> p_id p <> product_id ->
                  In p (products db'))
    /\ (forall s, In s (sales db) -> s_product_id s <> product_id ->
                  In s (sales db'))
    /\ customers db' = customers db.
Proof.
  intros product_id db [Hpids Hsids] db'. subst db'.
  destruct (in_int64 product_id) eqn:Hrange.
  - rewrite delete_product_in_range by exact Hrange. simpl.
    split; [|split; [|split; [|split]]].
    + intro Hin. apply in_map_iff in Hin. destruct Hin as [p [Hid Hin]].
      apply filter_In in Hin. destruct Hin as [_ Hne].
      apply negb_true_iff, Z.eqb_neq in Hne. contradiction.
    + intro Hin. apply in_map_iff in Hin. destruct Hin as [s [Hid Hin]].
      apply filter_In in Hin. destruct Hin as [_ Hne].
      apply negb_true_iff, Z.eqb_neq in Hne. contradiction.
    + intros p Hin Hne. apply filter_In. split; [exact Hin|].
      apply negb_true_iff, Z.eqb_neq. exact Hne.
    + intros s Hin Hne. apply filter_In. split; [exact Hin|].
      apply negb_true_iff, Z.eqb_neq. exact Hne.
    + reflexivity.
  - rewrite delete_product_out_of_range by exact Hrange. simpl.
    split; [|split; [|split; [|split]]]; try (intros; assumption);
      try reflexivity.
    + intro Hin. apply in_map_iff in Hin. destruct Hin as [p [Hid Hin]].
      rewrite Forall_forall in Hpids. specialize (Hpids p Hin). congruence.
    + intro Hin. apply in_map_iff in Hin. destruct Hin as [s [Hid Hin]].
      rewrite Forall_forall in Hsids. specialize (Hsids s Hin). congruence.
Qed.

Lemma delete_product_cascades_witness :
  stored_ids_in_range pen_store_with_sale
  /\ ~ In 1 (map p_id (products (snd (delete_product 1 pen_store_with_sale))))
  /\ ~ In 1 (map s_product_id
                 (sales (snd (delete_product 1 pen_store_with_sale)))).
Proof.
  assert (Hwf : stored_ids_in_range pen_store_with_sale).
  { split; repeat constructor. }
  destruct (delete_product_cascades 1 pen_store_with_sale Hwf) as [Hp [Hs _]].
  split; [exact Hwf|]. split; [exact Hp|exact Hs].
Defined.

Lemma filter_twice {A : Type} (f : A -> bool) (l : list A) :
  filter f (filter f l) = filter f l.
Proof.
  induction l as [|x xs IH]; simpl; [reflexivity|].
  destruct (f x) eqn:Hx; simpl; [rewrite Hx, IH; reflexivity|exact IH].
Qed.

(** X5.  Deleting the same product a second time returns or raises as
    the first call did and leaves the database as the first call left it,
    for every id and every database. *)
Theorem delete_product_twice :
  forall product_id db,
    delete_product product_id (snd (delete_product product_id db))
    = delete_product product_id db.
Proof.
  intros product_id db.
  destruct (in_int64 product_id) eqn:Hrange.
  - rewrite !delete_product_in_range by exact Hrange. simpl.
    rewrite !filter_twice. reflexivity.
  - rewrite !delete_product_out_of_range by exact Hrange. reflexivity.
Qed.

(** X6.  [adjust_stock] on an id that no product has leaves the database
    as it was, and when both arguments fit in a 64-bit integer it raises
    nothing (no "not found"). *)
Theorem adjust_stock_unknown_id_noop :
  forall product_id new_stock db,
    ~ In product_id (map p_id (products db)) ->
    snd (adjust_stock product_id new_stock db) = db
    /\ (in_int64 product_id = true -> in_int64 new_stock = true ->
        adjust_stock product_id new_stock db = (Return tt, db)).
Proof.
  intros product_id new_stock db Hnot.
  assert (Hupd : update_stock (fun _ => new_stock) product_id db = db).
  { unfold update_stock.
    assert (H : map (fun p => if p_id p =? product_id
                              then mkProduct (p_id p) (p_name p) (p_price p)
                                             new_stock (p_category p) (p_barcode p)
                              else p) (products db) = products db).
    { induction (products db) as [|p ps IH]; simpl; [reflexivity|].
      simpl in Hnot. destruct (p_id p =? product_id) eqn:E.
      - apply Z.eqb_eq in E. exfalso. apply Hnot. left. exact E.
      - rewrite IH; [reflexivity|]. intro Hin. apply Hnot. right. exact Hin. }
    rewrite H. destruct db; reflexivity. }
  split.
  - destruct (adjust_stock_cases product_id new_stock db) as [H|H]; rewrite H;
      [exact Hupd|reflexivity].
  - intros Hp Hn. rewrite adjust_stock_in_range by assumption.
    rewrite Hupd. reflexivity.
Qed.

Lemma adjust_stock_unknown_id_noop_witness :
  ~ In 7 (map p_id (products pen_store))
  /\ adjust_stock 7 3 pen_store = (Return tt, pen_store).
Proof.
  assert (Hnot : ~ In 7 (map p_id (products pen_store))).
  { simpl. intros [H|[]]. discriminate H. }
  split; [exact Hnot|].
  exact (proj2 (adjust_stock_unknown_id_noop 7 3 pen_store Hnot) eq_refl eq_refl).
Defined.

(** X7.  [adjust_stock] sets, it does not add: of two adjustments of the
    same product only the last one shows, when the last value fits in a
    64-bit integer. *)
Theorem adjust_stock_last_write_wins :
  forall product_id first second db,
    in_int64 second = true ->
    snd (adjust_stock product_id second (snd (adjust_stock product_id first db)))
    = snd (adjust_stock product_id second db).
Proof.
  intros product_id first second db Hsecond.
  destruct (in_int64 product_id) eqn:Hp.
  - rewrite !(adjust_stock_in_range product_id second) by assumption. simpl.
    destruct (adjust_stock_cases product_id first db) as [H|H]; rewrite H;
      [|reflexivity].
    unfold update_stock. simpl.
    f_equal. rewrite map_map. apply map_ext. intros p.
    destruct (p_id p =? product_id) eqn:E; simpl; rewrite E; reflexivity.
  - assert (Hfail : forall value d,
              adjust_stock product_id value d = (Raise NameError, d)).
    { intros value d. unfold adjust_stock, bind_int. rewrite Hp.
      destruct (in_int64 value); reflexivity. }
    rewrite !Hfail. reflexivity.
Qed.

Lemma adjust_stock_last_write_wins_witness :
  stock_of (snd (adjust_stock 1 4 (snd (adjust_stock 1 (2 ^ 63) pen_store)))) 1
  = Some 4
  /\ stock_of (snd (adjust_stock 1 4 (snd (adjust_stock 1 7 pen_store)))) 1
     = Some 4.
Proof.
  rewrite (adjust_stock_last_write_wins 1 (2 ^ 63) 4 pen_store eq_refl).
  rewrite (adjust_stock_last_write_wins 1 7 4 pen_store eq_refl).
  split; reflexivity.
Defined.

(** X8.  Return processing does not check that the sale row exists: for a
    sale id that is not in the table the sales table stays as it is, and
    the stock of the named product still goes up by the quantity. *)
Theorem process_return_unknown_sale_restocks :
  forall sale_id product_id qty db,
    ~ In sale_id (map s_id (sales db)) ->
    let r := process_return sale_id product_id qty db in
    fst r = Return tt
    /\ sales (snd r) = sales db
    /\ stock_of (snd r) product_id
       = option_map (fun stock => stock + qty) (stock_of db product_id).
Proof.
  intros sale_id product_id qty db Hnot r. subst r.
  unfold process_return. simpl. split; [reflexivity|]. split.
  - apply filter_all, Forall_forall. intros s Hin.
    apply negb_true_iff, Z.eqb_neq. intro E. apply Hnot.
    rewrite <- E. apply in_map. exact Hin.
  - rewrite stock_of_update_stock, Z.eqb_refl. reflexivity.
Qed.

Lemma process_return_unknown_sale_restocks_witness :
  ~ In 9 (map s_id (sales pen_store_with_sale))
  /\ stock_of (snd (process_return 9 1 2 pen_store_with_sale)) 1 = Some 12.
Proof.
  assert (Hnot : ~ In 9 (map s_id (sales pen_store_with_sale))).
  { simpl. intros [H|[]]. discriminate H. }
  split; [exact Hnot|].
  exact (proj2 (proj2 (process_return_unknown_sale_restocks
                         9 1 2 pen_store_with_sale Hnot))).
Defined.

Lemma stock_of_process_return (sale_id product_id qty other : Z) (db : database) :
  stock_of (snd (process_return sale_id product_id qty db)) other
  = if other =? product_id
    then option_map (fun stock => stock + qty) (stock_of db other)
    else stock_of db other.
Proof.
  unfold process_return. simpl snd. rewrite stock_of_update_stock. reflexivity.
Qed.

(** X9.  Processing the same return twice gives the quantity back twice:
    the second run finds no row to delete and adds to the stock again. *)
Theorem process_return_twice_restocks_twice :
  forall sale_id product_id qty db,
    let once := snd (process_return sale_id product_id qty db) in
    let twice := snd (process_return sale_id product_id qty once) in
    sales twice = sales once
    /\ stock_of twice product_id
       = option_map (fun stock => stock + qty + qty) (stock_of db product_id).
Proof.
  intros sale_id product_id qty db once twice. subst twice once. split.
  - unfold process_return. simpl. apply filter_twice.
  - rewrite !stock_of_process_return, Z.eqb_refl.
    destruct (stock_of db product_id); reflexivity.
Qed.

(** X10.  After [adjust_stock] with arguments that fit in a 64-bit
    integer, a product that exists is on the low-stock list, with its new
    stock, exactly when the new stock is below 5. *)
Theorem low_stock_after_adjust :
  forall product_id new_stock db p,
    in_int64 product_id = true -> in_int64 new_stock = true ->
    In p (products db) -> p_id p = product_id ->
    (In (p_name p, new_stock)
        (get_low_stock (snd (adjust_stock product_id new_stock db)))
     <-> new_stock < 5).
Proof.
  intros product_id new_stock db p Hp Hn Hin Hid.
  rewrite adjust_stock_in_range by assumption.
  unfold get_low_stock, update_stock. simpl. split.
  - intros H. apply in_map_iff in H. destruct H as [q [Hq Hq']].
    apply filter_In in Hq'. destruct Hq' as [_ Hlow].
    apply Z.ltb_lt in Hlow. inversion Hq; subst. exact Hlow.
  - intros Hlow. apply in_map_iff.
    exists (mkProduct (p_id p) (p_name p) (p_price p) new_stock
                      (p_category p) (p_barcode p)).
    split; [reflexivity|]. apply filter_In. split.
    + apply in_map_iff. exists p. split; [|exact Hin].
      apply Z.eqb_eq in Hid. rewrite Hid. reflexivity.
    + simpl. apply Z.ltb_lt. exact Hlow.
Qed.

Lemma low_stock_after_adjust_witness :
  In ("Pen", 3) (get_low_stock (snd (adjust_stock 1 3 pen_store)))
  /\ ~ In ("Pen", 10) (get_low_stock (snd (adjust_stock 1 10 pen_store))).
Proof.
  assert (Hin : In (mkProduct 1 "Pen" 5%Q 10 "Stationery" "Pen_5.0_120000")
                   (products pen_store)) by (left; reflexivity).
  split.
  - apply (low_stock_after_adjust 1 3 pen_store _ eq_refl eq_refl Hin eq_refl). lia.
  - intro H.
    apply (low_stock_after_adjust 1 10 pen_store _ eq_refl eq_refl Hin eq_refl) in H.
    lia.
Defined.

(** X11.  The key discipline of [products]: in every database reached
    from the empty one by [add_product], [adjust_stock],
    [delete_product], [record_sale] and return processing, product ids are
    pairwise different and none exceeds the recorded sequence value. *)
Theorem product_ids_unique_reachable :
  forall ops,
    product_ids_unique (perform_all ops empty_database)
    /\ Forall (fun p => p_id p <= seq_products (perform_all ops empty_database))
              (products (perform_all ops empty_database)).
Proof.
  assert (Hupdate : forall f product_id db,
            product_ids_unique db
            /\ Forall (fun p => p_id p <= seq_products db) (products db) ->
            product_ids_unique (update_stock f product_id db)
            /\ Forall (fun p => p_id p <= seq_products (update_stock f product_id db))
                      (products (update_stock f product_id db))).
  { intros f product_id db [Hkey Hseq]. split.
    - unfold product_ids_unique. rewrite products_update_stock_ids. exact Hkey.
    - simpl. rewrite Forall_forall in *. intros q Hq.
      apply in_map_iff in Hq. destruct Hq as [p [Hp Hin]]. subst q.
      specialize (Hseq p Hin). destruct (p_id p =? product_id); exact Hseq. }
  assert (Hstep : forall o db,
            product_ids_unique db
            /\ Forall (fun p => p_id p <= seq_products db) (products db) ->
            product_ids_unique (perform o db)
            /\ Forall (fun p => p_id p <= seq_products (perform o db))
                      (products (perform o db))).
  { intros o db [Hkey Hseq].
    destruct o; unfold perform; cbn [perform_with].
    - destruct (add_product_products clk price_repr image_written name price
                  stock category db) as [Hsame|[_ [Hprod [Hs _]]]].
      + rewrite Hsame. split; assumption.
      + destruct (next_rowid_above (seq_products db) (map p_id (products db)))
          as [Habove Hids].
        unfold product_ids_unique. rewrite Hprod, Hs. split.
        * rewrite map_app. simpl.
          apply NoDup_app; [exact Hkey|repeat constructor; intros []|].
          intros x Hin [Hx|[]]. subst x. exact (next_rowid_fresh _ _ Hin).
        * apply Forall_app. split.
          -- eapply Forall_impl; [|exact Hseq]. simpl. intros q Hq. lia.
          -- constructor; [simpl; lia|constructor].
    - destruct (adjust_stock_cases product_id new_stock db) as [H|H]; rewrite H;
        simpl snd; [|split; assumption].
      apply Hupdate. split; assumption.
    - destruct (delete_product_database product_id db) as [H|[_ H]]; rewrite H;
        [split; assumption|]. split.
      + unfold product_ids_unique. simpl. apply NoDup_map_filter. exact Hkey.
      + simpl. rewrite Forall_forall in *. intros q Hq.
        apply filter_In in Hq. apply Hseq, Hq.
    - fold record_sale. rewrite record_sale_keeps_database. split; assumption.
    - unfold process_return. simpl snd.
      match goal with
      | |- context [update_stock ?f product_id ?d] =>
          apply (Hupdate f product_id d)
      end.
      split; assumption. }
  assert (Hall : forall ops db,
            product_ids_unique db
            /\ Forall (fun p => p_id p <= seq_products db) (products db) ->
            product_ids_unique (perform_all ops db)
            /\ Forall (fun p => p_id p <= seq_products (perform_all ops db))
                      (products (perform_all ops db))).
  { unfold perform_all. induction ops as [|o ops IH]; intros db Hdb; [exact Hdb|].
    simpl. apply IH, Hstep, Hdb. }
  intros ops. apply Hall. split; constructor.
Qed.

(** * Further properties of the customer ledger *)

Lemma insert_by_name_listing (row : Z * string) (rows : list (Z * string)) :
  Permutation (row :: rows) (insert_by_name row rows).
Proof.
  induction rows as [|r rest IH]; simpl; [apply Permutation_refl|].
  destruct (String.leb (snd row) (snd r)); [apply Permutation_refl|].
  eapply Permutation_trans; [apply perm_swap|]. apply perm_skip. exact IH.
Qed.

Lemma insert_by_name_sorted (row : Z * string) (rows : list (Z * string)) :
  Sorted (fun a b => String.leb (snd a) (snd b) = true) rows ->
  Sorted (fun a b => String.leb (snd a) (snd b) = true) (insert_by_name row rows).
Proof.
  induction rows as [|r rest IH]; simpl; intros Hsorted.
  - constructor; constructor.
  - destruct (String.leb (snd row) (snd r)) eqn:Hle.
    + constructor; [exact Hsorted|]. constructor. exact Hle.
    + inversion Hsorted as [|? ? Hrest Hhd]; subst.
      constructor; [apply IH; exact Hrest|].
      destruct rest as [|r' rest']; simpl.
      * constructor. destruct (String.leb_total (snd r) (snd row)) as [H|H];
          [exact H|congruence].
      * destruct (String.leb (snd row) (snd r')).
        -- constructor. destruct (String.leb_total (snd r) (snd row)) as [H|H];
             [exact H|congruence].
        -- constructor. inversion Hhd; subst. assumption.
Qed.

Lemma get_customers_listing (db : database) :
  Permutation (map (fun c => (c_id c, c_name c)) (customers db))
              (get_customers db).
Proof.
  unfold get_customers.
  induction (map (fun c => (c_id c, c_name c)) (customers db)) as [|r rest IH];
    simpl; [constructor|].
  eapply Permutation_trans; [apply perm_skip; exact IH|].
  apply insert_by_name_listing.
Qed.

(** X12.  [get_customers] returns every customer once, as [(id, name)],
    in ascending order of name. *)
Theorem get_customers_sorted :
  forall db,
    Sorted (fun a b => String.leb (snd a) (snd b) = true) (get_customers db)
    /\ Permutation (map (fun c => (c_id c, c_name c)) (customers db))
                   (get_customers db).
Proof.
  intros db. split.
  - unfold get_customers.
    induction (map (fun c => (c_id c, c_name c)) (customers db)) as [|r rest IH];
      simpl; [constructor|].
    apply insert_by_name_sorted. exact IH.
  - unfold get_customers.
    induction (map (fun c => (c_id c, c_name c)) (customers db)) as [|r rest IH];
      simpl; [constructor|].
    eapply Permutation_trans; [apply perm_skip; exact IH|].
    apply insert_by_name_listing.
Qed.

(** X13.  [add_customer] keeps emails and ids unique: if no two customers
    share an email or an id before the call, none do after it. *)
Theorem add_customer_keeps_unique :
  forall name email points age db,
    NoDup (map c_email (customers db)) ->
    NoDup (map c_id (customers db)) ->
    let db' := snd (add_customer name email points age db) in
    NoDup (map c_email (customers db')) /\ NoDup (map c_id (customers db')).
Proof.
  intros name email points age db Hemail Hid db'. subst db'.
  unfold add_customer.
  destruct (_ <- bind_int points ;; bind_optional_int age) as [[]|e];
    [|split; assumption].
  destruct (existsb (fun c => String.eqb (c_email c) email) (customers db))
    eqn:Hex; simpl; [split; assumption|].
  rewrite !map_app. simpl. split.
  - apply NoDup_app; [exact Hemail|repeat constructor; intros []|].
    intros x Hin [Hx|[]]. subst x.
    apply in_map_iff in Hin. destruct Hin as [c [Hc Hin]].
    assert (Htrue : existsb (fun c => String.eqb (c_email c) email)
                            (customers db) = true).
    { apply existsb_exists. exists c. split; [exact Hin|].
      apply String.eqb_eq. exact Hc. }
    congruence.
  - apply NoDup_app; [exact Hid|repeat constructor; intros []|].
    intros x Hin [Hx|[]]. subst x. exact (next_rowid_fresh _ _ Hin).
Qed.

Lemma add_customer_keeps_unique_witness :
  NoDup (map c_email (customers customer_store))
  /\ NoDup (map c_id (customers customer_store)).
Proof.
  apply (add_customer_keeps_unique "Bea" "bea@example.org" 0 None).
  - repeat constructor; simpl; intuition discriminate.
  - repeat constructor; simpl; intuition discriminate.
Defined.

(** X14.  A customer added under an email that is not yet stored, with
    points and age that fit in a 64-bit integer, gets an id no other
    customer has and is listed by [get_customers] under the given name. *)
Theorem add_customer_then_listed :
  forall name email points age db,
    in_int64 points = true -> bind_optional_int age = Return tt ->
    existsb (fun c => String.eqb (c_email c) email) (customers db) = false ->
    exists id,
      fst (add_customer name email points age db) = Return id
      /\ ~ In id (map c_id (customers db))
      /\ In (id, name)
            (get_customers (snd (add_customer name email points age db))).
Proof.
  intros name email points age db Hp Ha Hnew.
  rewrite (add_customer_in_range name email points age db Hp Ha). rewrite Hnew.
  exists (next_rowid (seq_customers db) (map c_id (customers db))). simpl.
  split; [reflexivity|]. split; [apply next_rowid_fresh|].
  eapply Permutation_in; [apply get_customers_listing|].
  simpl. rewrite map_app. apply in_or_app. right. left. reflexivity.
Qed.

Lemma add_customer_then_listed_witness :
  exists id,
    fst (add_customer "Dee" "dee@example.org" 0 None customer_store) = Return id
    /\ ~ In id (map c_id (customers customer_store))
    /\ In (id, "Dee")
          (get_customers (snd (add_customer "Dee" "dee@example.org" 0 None
                                            customer_store))).
Proof.
  exact (add_customer_then_listed "Dee" "dee@example.org" 0 None customer_store
                                  eq_refl eq_refl eq_refl).
Defined.

(** * Staff directory *)

Lemma fetch_none_iff_no_pin (pin : string) (members : list staff_member) :
  fetchone (filter (fun m => String.eqb (st_pin m) pin) members) = None
  <-> existsb (fun m => String.eqb (st_pin m) pin) members = false.
Proof.
  induction members as [|m ms IH]; simpl; [split; reflexivity|].
  destruct (String.eqb (st_pin m) pin); simpl; [split; discriminate|exact IH].
Qed.

(** X15.  Insert and look up: when [verify_staff_pin] does not know a
    pin, [add_staff] with that pin returns normally, the pin then verifies
    as the new member with the given name and role, and every other pin
    verifies as before. *)
Theorem add_staff_then_verify :
  forall name pin role tbl,
    verify_staff_pin pin tbl = None ->
    let r := add_staff name pin role tbl in
    fst r = Return tt
    /\ verify_staff_pin pin (snd r)
       = Some (next_rowid (seq_staff tbl) (map st_id (staff tbl)), name, role)
    /\ (forall other, other <> pin ->
          verify_staff_pin other (snd r) = verify_staff_pin other tbl).
Proof.
  intros name pin role tbl Hnone r. subst r.
  unfold verify_staff_pin in Hnone.
  destruct (fetchone (filter (fun m => String.eqb (st_pin m) pin) (staff tbl)))
    eqn:Hfetch; [discriminate|].
  pose proof (proj1 (fetch_none_iff_no_pin pin (staff tbl)) Hfetch) as Hfree.
  unfold add_staff. rewrite Hfree. simpl.
  split; [reflexivity|]. unfold verify_staff_pin. simpl. split.
  - rewrite filter_app. simpl. rewrite String.eqb_refl.
    assert (Hempty : filter (fun m => String.eqb (st_pin m) pin) (staff tbl) = []).
    { destruct (filter (fun m => String.eqb (st_pin m) pin) (staff tbl));
        [reflexivity|discriminate]. }
    rewrite Hempty. reflexivity.
  - intros other Hne. rewrite filter_app. simpl.
    assert (Hpin : String.eqb pin other = false).
    { apply String.eqb_neq. congruence. }
    rewrite Hpin, app_nil_r. reflexivity.
Qed.

Lemma add_staff_then_verify_witness :
  verify_staff_pin "7777" admin_table = None
  /\ verify_staff_pin "7777" (snd (add_staff "Sam" "7777" "staff" admin_table))
     = Some (2, "Sam", "staff")
  /\ verify_staff_pin "1234" (snd (add_staff "Sam" "7777" "staff" admin_table))
     = Some (1, "Admin", "admin").
Proof.
  destruct (add_staff_then_verify "Sam" "7777" "staff" admin_table eq_refl)
    as [_ [Hnew Hother]].
  split; [reflexivity|]. split; [exact Hnew|].
  rewrite (Hother "1234"); [reflexivity|discriminate].
Defined.

(** X16.  A pin that already verifies cannot be given to a second member:
    [add_staff] leaves the table unchanged, and what the caller sees is
    [NameError], raised by the handler's log statement, not the
    [IntegrityError] of the insert. *)
Theorem add_staff_duplicate_pin :
  forall name pin role tbl member,
    verify_staff_pin pin tbl = Some member ->
    add_staff name pin role tbl = (Raise NameError, tbl).
Proof.
  intros name pin role tbl member Hsome. unfold add_staff.
  destruct (existsb (fun m => String.eqb (st_pin m) pin) (staff tbl)) eqn:Hex.
  - reflexivity.
  - apply fetch_none_iff_no_pin in Hex. unfold verify_staff_pin in Hsome.
    rewrite Hex in Hsome. discriminate.
Qed.

Lemma add_staff_duplicate_pin_witness :
  verify_staff_pin "1234" admin_table = Some (1, "Admin", "admin")
  /\ add_staff "Eve" "1234" "admin" admin_table = (Raise NameError, admin_table).
Proof.
  split; [reflexivity|].
  exact (add_staff_duplicate_pin "Eve" "1234" "admin" admin_table
                                 (1, "Admin", "admin") eq_refl).
Defined.

(** * Further properties of reporting *)

Lemma string_compare_trans (s1 : string) :
  forall s2 s3,
    String.compare s1 s2 <> Gt -> String.compare s2 s3 <> Gt ->
    String.compare s1 s3 <> Gt.
Proof.
  induction s1 as [|a s1 IH]; intros [|b s2] [|c s3] H12 H23; simpl in *;
    try congruence.
  unfold Ascii.compare in *.
  destruct (N.compare_spec (N_of_ascii a) (N_of_ascii b)) as [E1|L1|G1];
    destruct (N.compare_spec (N_of_ascii b) (N_of_ascii c)) as [E2|L2|G2];
    destruct (N.compare_spec (N_of_ascii a) (N_of_ascii c)) as [E3|L3|G3];
    try congruence; try lia.
  apply (IH s2 s3); assumption.
Qed.

Lemma string_leb_trans (s1 s2 s3 : string) :
  String.leb s1 s2 = true -> String.leb s2 s3 = true -> String.leb s1 s3 = true.
Proof.
  unfold String.leb. intros H12 H23.
  pose proof (string_compare_trans s1 s2 s3) as H.
  destruct (String.compare s1 s2); destruct (String.compare s2 s3);
    destruct (String.compare s1 s3); try reflexivity; try discriminate;
    exfalso; apply H; congruence.
Qed.

(** X17.  The reporting windows nest: with a clock whose window starts
    are in calendar order, every sale counted for today is counted for the
    week, every sale counted for the week is counted for the month, and
    every period counts only rows of the sales table. *)
Theorem reporting_windows_nest :
  forall clk db,
    clock_in_order clk ->
    incl (sales_in_period clk "today" db) (sales_in_period clk "week" db)
    /\ incl (sales_in_period clk "week" db) (sales_in_period clk "month" db)
    /\ (forall period, incl (sales_in_period clk period db) (sales db)).
Proof.
  intros clk db [Hmw Hwt]. unfold sales_in_period. simpl.
  split; [|split].
  - intros s Hin. apply filter_In in Hin. destruct Hin as [Hin Hdate].
    apply filter_In. split; [exact Hin|].
    exact (string_leb_trans _ _ _ Hwt Hdate).
  - intros s Hin. apply filter_In in Hin. destruct Hin as [Hin Hdate].
    apply filter_In. split; [exact Hin|].
    exact (string_leb_trans _ _ _ Hmw Hdate).
  - intros period s Hin.
    destruct (String.eqb period "today");
      [|destruct (String.eqb period "week");
        [|destruct (String.eqb period "month")]];
      try (apply filter_In in Hin; apply Hin); exact Hin.
Qed.

Lemma reporting_windows_nest_witness :
  clock_in_order clk0
  /\ incl (sales_in_period clk0 "today" pen_store_with_sale)
          (sales_in_period clk0 "week" pen_store_with_sale)
  /\ sales_in_period clk0 "week" pen_store_with_sale <> [].
Proof.
  assert (Hclk : clock_in_order clk0) by (split; reflexivity).
  split; [exact Hclk|]. split.
  - exact (proj1 (reporting_windows_nest clk0 pen_store_with_sale Hclk)).
  - discriminate.
Defined.

Lemma or_zero_int_sum (xs : list Z) :
  or_zero_int (sum_int xs) = fold_right Z.add 0 xs.
Proof.
  assert (Hfold : forall l acc, fold_left Z.add l acc = acc + fold_right Z.add 0 l).
  { induction l as [|y ys IH]; intros acc; simpl; [lia|]. rewrite IH. lia. }
  destruct xs as [|x xs']; [reflexivity|].
  unfold sum_int, or_zero_int. rewrite Hfold.
  destruct (0 + fold_right Z.add 0 (x :: xs') =? 0) eqn:E.
  - apply Z.eqb_eq in E. lia.
  - lia.
Qed.

Lemma sales_in_period_incl (clk : clock) (period : string) (db : database) :
  incl (sales_in_period clk period db) (sales db).
Proof.
  unfold sales_in_period. intros s Hin.
  destruct (String.eqb period "today");
    [|destruct (String.eqb period "week");
      [|destruct (String.eqb period "month")]];
    try (apply filter_In in Hin; apply Hin); exact Hin.
Qed.

Lemma sales_in_period_delete_product (clk : clock) (period : string)
    (product_id : Z) (db : database) :
  in_int64 product_id = true ->
  sales_in_period clk period (snd (delete_product product_id db))
  = filter (fun s => negb (s_product_id s =? product_id))
           (sales_in_period clk period db).
Proof.
  intros Hrange.
  assert (Hcomm : forall (f g : sale -> bool) l,
            filter f (filter g l) = filter g (filter f l)).
  { intros f g l. induction l as [|x xs IH]; simpl; [reflexivity|].
    destruct (f x) eqn:Hf; destruct (g x) eqn:Hg; simpl;
      rewrite ?Hf, ?Hg, IH; reflexivity. }
  rewrite delete_product_in_range by exact Hrange.
  unfold sales_in_period. simpl.
  destruct (String.eqb period "today"); [apply Hcomm|].
  destruct (String.eqb period "week"); [apply Hcomm|].
  destruct (String.eqb period "month"); [apply Hcomm|reflexivity].
Qed.

(** No stored sale row refers to an id that does not fit in 64 bits. *)
Lemma no_sale_of_unbound_id (product_id : Z) (rows : list sale) :
  in_int64 product_id = false ->
  Forall (fun s => in_int64 (s_product_id s) = true) rows ->
  filter (fun s => s_product_id s =? product_id) rows = [].
Proof.
  intros Hrange Hall. induction Hall as [|s rest Hs _ IH]; simpl; [reflexivity|].
  destruct (s_product_id s =? product_id) eqn:E; [|exact IH].
  apply Z.eqb_eq in E. congruence.
Qed.

(** X18.  Deleting a product takes its sales out of the reports: in a
    database whose stored ids are 64-bit integers, for every period, the
    number of items [get_sales_summary] reports after [delete_product] is
    the number before, less the quantities of that product's sale rows in
    the period. *)
Theorem summary_items_after_delete :
  forall clk period product_id db,
    stored_ids_in_range db ->
    snd (get_sales_summary clk period (snd (delete_product product_id db)))
    = snd (get_sales_summary clk period db)
      - fold_right Z.add 0
          (map s_quantity
               (filter (fun s => s_product_id s =? product_id)
                       (sales_in_period clk period db))).
Proof.
  intros clk period product_id db [_ Hsids].
  destruct (in_int64 product_id) eqn:Hrange.
  - unfold get_sales_summary.
    rewrite sales_in_period_delete_product by exact Hrange. cbn [snd].
    rewrite !or_zero_int_sum.
    induction (sales_in_period clk period db) as [|s rows IH]; simpl;
      [reflexivity|].
    destruct (s_product_id s =? product_id); simpl; lia.
  - rewrite delete_product_out_of_range by exact Hrange. cbn [snd].
    rewrite (no_sale_of_unbound_id product_id (sales_in_period clk period db)
               Hrange).
    + simpl. lia.
    + rewrite Forall_forall in *. intros s Hin.
      apply Hsids. apply (sales_in_period_incl clk period db). exact Hin.
Qed.

Lemma summary_items_after_delete_witness :
  stored_ids_in_range pen_store_with_sale
  /\ snd (get_sales_summary clk0 "all" (snd (delete_product 1 pen_store_with_sale)))
     = 0
  /\ snd (get_sales_summary clk0 "all" pen_store_with_sale) = 2.
Proof.
  assert (Hwf : stored_ids_in_range pen_store_with_sale).
  { split; repeat constructor. }
  split; [exact Hwf|]. split; [|reflexivity].
  rewrite (summary_items_after_delete clk0 "all" 1 pen_store_with_sale Hwf).
  reflexivity.
Defined.

(** * The cart and inventory handlers *)

(** X19.  Starting from the empty cart, whatever is entered and however
    the database changes in between, every line [add_to_cart] has put in
    the cart has a quantity above zero. *)
Theorem cart_quantities_positive :
  forall steps : list (Z * Z * database),
    Forall (fun entry : cart_entry => 0 < snd (fst (fst entry)))
           (fold_left (fun cart (step : Z * Z * database) =>
                         snd (add_to_cart (fst (fst step)) (snd (fst step))
                                          cart (snd step)))
                      steps []).
Proof.
  assert (H : forall (steps : list (Z * Z * database)) cart,
            Forall (fun entry : cart_entry => 0 < snd (fst (fst entry))) cart ->
            Forall (fun entry : cart_entry => 0 < snd (fst (fst entry)))
                   (fold_left (fun cart (step : Z * Z * database) =>
                                 snd (add_to_cart (fst (fst step)) (snd (fst step))
                                                  cart (snd step)))
                              steps cart)).
  { induction steps as [|[[product_id qty] db] steps IH]; intros cart Hcart;
      [exact Hcart|].
    simpl. apply IH. unfold add_to_cart.
    destruct (qty <=? 0) eqn:Hq; [exact Hcart|]. apply Z.leb_gt in Hq.
    destruct (fetchone (select_product db product_id)) as [p|]; [|exact Hcart].
    destruct (p_stock p <? qty); [exact Hcart|]. simpl.
    apply Forall_app. split; [exact Hcart|]. repeat constructor. exact Hq. }
  intros steps. apply H. constructor.
Qed.

(** X20.  [add_to_cart] checks each entry against the stock alone, not
    against what the cart already holds: two entries for the same
    product, each within the stock, are both accepted, even when together
    they ask for more than the stock. *)
Theorem add_to_cart_checks_each_entry_alone :
  forall product_id first second stock cart db,
    stock_of db product_id = Some stock ->
    0 < first <= stock -> 0 < second <= stock ->
    exists price name,
      add_to_cart product_id second
                  (snd (add_to_cart product_id first cart db)) db
      = (None, (cart ++ [(product_id, first, price, name);
                         (product_id, second, price, name)])%list).
Proof.
  intros product_id first second stock cart db Hstock [Hf1 Hf2] [Hs1 Hs2].
  unfold stock_of in Hstock.
  destruct (fetchone (select_product db product_id)) as [p|] eqn:Hp;
    [|discriminate].
  simpl in Hstock. inversion Hstock; subst stock.
  exists (p_price p), (p_name p). unfold add_to_cart. rewrite Hp.
  replace (first <=? 0) with false by (symmetry; apply Z.leb_gt; lia).
  replace (second <=? 0) with false by (symmetry; apply Z.leb_gt; lia).
  replace (p_stock p <? first) with false by (symmetry; apply Z.ltb_ge; lia).
  replace (p_stock p <? second) with false by (symmetry; apply Z.ltb_ge; lia).
  simpl. rewrite <- app_assoc. reflexivity.
Qed.

Lemma add_to_cart_checks_each_entry_alone_witness :
  exists price name,
    add_to_cart 1 10 (snd (add_to_cart 1 10 [] pen_store)) pen_store
    = (None, [(1, 10, price, name); (1, 10, price, name)]).
Proof.
  apply (add_to_cart_checks_each_entry_alone 1 10 10 10 [] pen_store eq_refl);
    lia.
Defined.

(** X21.  Through the inventory handlers the stock invariant needs no
    assumption on what the user enters: after any sequence of
    [ShopifyPOS.add_product], [apply_stock_adjust] and
    [remove_inventory_item], every stock is at least zero if it was
    before. *)
Theorem inventory_actions_keep_stock_nonneg :
  forall actions db,
    stock_nonneg db -> stock_nonneg (act_all actions db).
Proof.
  unfold act_all. induction actions as [|a actions IH]; intros db Hdb;
    [exact Hdb|].
  simpl. apply IH. destruct a; simpl.
  - unfold ShopifyPOS_add_product.
    destruct (String.eqb name ""); [exact Hdb|].
    destruct (negb (Qle_bool 0 price) || (stock <? 0)) eqn:Hcheck; [exact Hdb|].
    apply orb_false_elim in Hcheck. destruct Hcheck as [_ Hstock].
    apply Z.ltb_ge in Hstock.
    pose proof (stock_nonneg_add_product clk price_repr image_written name price
                  stock category db Hstock Hdb) as Hadd.
    destruct (add_product clk price_repr image_written name price stock
                          category db) as [[barcode|e] db']; exact Hadd.
  - unfold apply_stock_adjust.
    destruct (new_stock <? 0) eqn:Hneg; [exact Hdb|].
    apply Z.ltb_ge in Hneg.
    pose proof (stock_nonneg_adjust_stock product_id new_stock db Hneg Hdb)
      as Hadj.
    destruct (adjust_stock product_id new_stock db) as [[[]|e] db']; exact Hadj.
  - unfold remove_inventory_item. destruct confirmed; [|exact Hdb].
    apply stock_nonneg_delete_product. exact Hdb.
Qed.

Lemma inventory_actions_keep_stock_nonneg_witness :
  stock_nonneg
    (act_all [UiAdjustStock 1 (-5);
              UiAddProduct clk0 "2.5" true "Notebook" 2.5%Q (-1) "Stationery";
              UiAddProduct clk0 "2.5" true "Notebook" 2.5%Q 4 "Stationery";
              UiRemoveItem 1 true]
             pen_store).
Proof.
  apply inventory_actions_keep_stock_nonneg.
  repeat constructor. simpl. lia.
Defined.

(** X22.  Insert and look up: after an [add_product] that returns, the
    new product is found under the id the sequence now records, with the
    stock it was given, and every product that was there before keeps its
    stock. *)
Theorem add_product_then_stock_of :
  forall clk price_repr name price stock category db barcode,
    fst (add_product clk price_repr true name price stock category db)
    = Return barcode ->
    let db' := snd (add_product clk price_repr true name price stock category db) in
    stock_of db' (seq_products db') = Some stock
    /\ (forall other, In other (map p_id (products db)) ->
          stock_of db' other = stock_of db other).
Proof.
  intros clk price_repr name price stock category db barcode.
  destruct (in_int64 stock) eqn:Hrange;
    [|rewrite add_product_out_of_range by exact Hrange; discriminate].
  rewrite add_product_in_range by exact Hrange. cbv zeta.
  destruct (existsb _ (products db)); simpl; [discriminate|].
  intros _. unfold stock_of, select_product. simpl. split.
  - rewrite filter_app. simpl. rewrite Z.eqb_refl.
    assert (Hnone : filter (fun p => p_id p =? next_rowid (seq_products db)
                                                          (map p_id (products db)))
                           (products db) = []).
    { pose proof (next_rowid_fresh (seq_products db) (map p_id (products db)))
        as Hfresh.
      induction (products db) as [|p ps IH]; simpl; [reflexivity|].
      simpl in Hfresh.
      destruct (p_id p =? next_rowid (seq_products db) (p_id p :: map p_id ps))
        eqn:E.
      - apply Z.eqb_eq in E. exfalso. apply Hfresh. left. exact E.
      - clear IH.
        assert (Hrest : forall l, (forall x, In x l ->
                           p_id x <> next_rowid (seq_products db)
                                                (p_id p :: map p_id ps)) ->
                         filter (fun q => p_id q =? next_rowid (seq_products db)
                                                   (p_id p :: map p_id ps)) l = []).
        { induction l as [|x xs IHl]; intros Hl; simpl; [reflexivity|].
          replace (p_id x =? next_rowid (seq_products db) (p_id p :: map p_id ps))
            with false
            by (symmetry; apply Z.eqb_neq; apply Hl; left; reflexivity).
          apply IHl. intros y Hy. apply Hl. right. exact Hy. }
        apply Hrest. intros x Hx E'. apply Hfresh. right. rewrite <- E'.
        apply in_map. exact Hx. }
    rewrite Hnone. reflexivity.
  - intros other Hin. rewrite filter_app. simpl.
    destruct (next_rowid (seq_products db) (map p_id (products db)) =? other)
      eqn:E.
    + apply Z.eqb_eq in E. exfalso.
      apply (next_rowid_fresh (seq_products db) (map p_id (products db))).
      rewrite E. exact Hin.
    + rewrite app_nil_r. reflexivity.
Qed.

Lemma add_product_then_stock_of_witness :
  stock_of pen_notebook_store 2 = Some 0
  /\ stock_of pen_notebook_store 1 = stock_of pen_store 1.
Proof.
  destruct (add_product_then_stock_of clk0 "2.5" "Notebook" 2.5%Q 0 "Stationery"
              pen_store "Notebook_2.5_120000" eq_refl) as [Hnew Hold].
  split; [exact Hnew|]. apply Hold. left. reflexivity.
Defined.

(** X23.  A customer's purchase history loses the rows of a deleted
    product and nothing else: in a database whose stored ids are 64-bit
    integers, the history after [delete_product] is the history before
    without that product's rows, in the same order. *)
Theorem customer_history_after_delete :
  forall customer_id product_id db,
    stored_ids_in_range db ->
    get_customer_history customer_id (snd (delete_product product_id db))
    = filter (fun s => negb (s_product_id s =? product_id))
             (get_customer_history customer_id db).
Proof.
  intros customer_id product_id db [_ Hsids].
  destruct (in_int64 product_id) eqn:Hrange.
  - rewrite delete_product_in_range by exact Hrange. clear Hsids.
    unfold get_customer_history. simpl.
    induction (sales db) as [|s rows IH]; simpl; [reflexivity|].
    destruct (negb (s_product_id s =? product_id)) eqn:Hp;
      destruct (match s_customer_id s with
                | Some c => c =? customer_id
                | None => false
                end) eqn:Hc; simpl; rewrite ?Hp, ?Hc, IH; reflexivity.
  - rewrite delete_product_out_of_range by exact Hrange. simpl.
    symmetry. apply filter_all. unfold get_customer_history.
    rewrite Forall_forall in *. intros s Hin.
    apply filter_In in Hin. destruct Hin as [Hin _].
    specialize (Hsids s Hin).
    apply negb_true_iff, Z.eqb_neq. intro E. congruence.
Qed.

Lemma customer_history_after_delete_witness :
  stored_ids_in_range pen_store_with_sale
  /\ get_customer_history 4 (snd (delete_product 1 pen_store_with_sale))
     = filter (fun s => negb (s_product_id s =? 1))
              (get_customer_history 4 pen_store_with_sale).
Proof.
  assert (Hwf : stored_ids_in_range pen_store_with_sale).
  { split; repeat constructor. }
  split; [exact Hwf|].
  exact (customer_history_after_delete 4 1 pen_store_with_sale Hwf).
Defined.
